(** * The question-answering facade [Model] of [src/models/model.py]

  A shallow embedding of the class [Model]: its constructor, [generate],
  [compute_token_importances] and [load_weigths], together with the Python
  string primitives ([str.split], [str.join], f-string formatting) the
  history linearization is written with.

  The pretrained modules, the tokenizer and the tensor runtime are external
  collaborators: they appear as the operations of a [Backend] the
  development is parametric in.  Every external call may raise, and the
  calls a method makes are recorded in order. *)

From Stdlib Require Import QArith Ascii.
From stdpp Require Import gmap strings list fin_maps.

(** ** Python strings *)

Module PyStr.

(** [s[len(p):]] when [s.startswith(p)], otherwise nothing. *)
Fixpoint strip_prefix (p s : string) : option string :=
  match p, s with
  | EmptyString, _ => Some s
  | String _ _, EmptyString => None
  | String a p', String b s' =>
      if Ascii.eqb a b then strip_prefix p' s' else None
  end.

(** [s.partition(sep)] restricted to the case where [sep] occurs: the text
    before the leftmost occurrence of [sep] and the text after it. *)
Fixpoint partition (sep s : string) : option (string * string) :=
  match strip_prefix sep s with
  | Some rest => Some (EmptyString, rest)
  | None =>
      match s with
      | EmptyString => None
      | String c s' =>
          match partition sep s' with
          | Some (before, after) => Some (String c before, after)
          | None => None
          end
      end
  end.

(** The loop of [s.split(sep)]: cut at the leftmost occurrence, go on with
    what follows it; the text after the last occurrence is the last piece.
    [fuel] bounds the number of cuts. *)
Fixpoint split_loop (fuel : nat) (sep s : string) : list string :=
  match fuel with
  | O => [s]
  | S fuel' =>
      match partition sep s with
      | None => [s]
      | Some (before, after) => before :: split_loop fuel' sep after
      end
  end.

(** [s.split(sep)] for a non-empty [sep] (Python raises [ValueError] on an
    empty one; the model only ever splits on a seven-character literal).
    Every cut consumes at least one character, so [length s] cuts are
    enough, see [split_loop_enough]. *)
Definition split (s sep : string) : list string :=
  split_loop (String.length s) sep s.

(** [sep.join(pieces)]. *)
Definition join (sep : string) (pieces : list string) : string :=
  String.concat sep pieces.

(** [c in s]. *)
Fixpoint contains_char (c : Ascii.ascii) (s : string) : bool :=
  match s with
  | EmptyString => false
  | String b s' => Ascii.eqb c b || contains_char c s'
  end.

(** What an f-string replacement field [{x}] prints for an attribute that
    holds either a string or [None]. *)
Definition format (x : option string) : string :=
  match x with
  | Some s => s
  | None => "None"
  end.

End PyStr.

(** ** Python values and keyword dictionaries *)

(** The values a generation option can hold.  A Python float is kept as the
    rational it denotes. *)
Inductive pyvalue : Type :=
| PyBool (b : bool)
| PyInt (n : Z)
| PyFloat (x : Q).

(** [dict] with string keys, as passed through [**generation_params]. *)
Abbreviation pydict := (gmap string pyvalue).

(** ** Exceptions *)

Inductive exn : Type :=
| Exception (msg : string).

(** The outcome of an expression that may raise. *)
Inductive result (A : Type) : Type :=
| Ok (a : A)
| Raise (e : exn).
Arguments Ok {A} a.
Arguments Raise {A} e.

Definition is_raise {A} (r : result A) : Prop :=
  match r with
  | Ok _ => False
  | Raise _ => True
  end.

#[global] Instance result_ret : MRet result := fun A a => Ok a.
#[global] Instance result_bind : MBind result := fun A B f r =>
  match r with
  | Ok a => f a
  | Raise e => Raise e
  end.

(** ** The external collaborators *)

(** First positional arguments of a tokenizer call: one text or a batch. *)
Inductive text_input : Type :=
| Str (s : string)
| StrBatch (batch : list string).

(** The arguments of [tokenizer(text, text_pair, max_length=..., ...)]. *)
Record tokenizer_args : Type := TokenizerArgs {
  text : text_input;
  text_pair : text_input;
  max_length : Z;
  truncation : bool;
  padding : bool;
  return_tensors : string
}.

(** What a tokenizer call returns. *)
Record BatchEncoding (Tensor : Type) : Type := {
  input_ids : Tensor;
  attention_mask : Tensor
}.
Arguments input_ids {Tensor} _.
Arguments attention_mask {Tensor} _.

(** The two fields of [encoder_decoder.config] the facade writes. *)
Record Config : Type := {
  decoder_start_token_id : option Z;
  pad_token_id : option Z
}.

(** The encoder-decoder: [network] stands for its architecture, its learned
    parameters and whatever else the facade never touches. *)
Record EncoderDecoder (Net : Type) : Type := {
  network : Net;
  config : Config
}.
Arguments network {Net} _.
Arguments config {Net} _.

(** [transformers], [torch] and the two sibling modules
    [token_importances_extractor.py] and [encoder_decoder.py], as far as
    [model.py] uses them. *)
Class Backend : Type := {
  Tokenizer : Type;
  Tensor : Type;
  Extractor : Type;
  Net : Type;
  StateDict : Type;
  (* AutoTokenizer.from_pretrained(model_name) *)
  AutoTokenizer_from_pretrained : string -> result Tokenizer;
  (* tokenizer.sep_token, tokenizer.cls_token_id, tokenizer.pad_token_id *)
  sep_token : Tokenizer -> option string;
  cls_token_id : Tokenizer -> option Z;
  tokenizer_pad_token_id : Tokenizer -> option Z;
  (* tokenizer(...) *)
  tokenizer_call : Tokenizer -> tokenizer_args -> result (BatchEncoding Tensor);
  (* inputs.to(device) *)
  encoding_to : BatchEncoding Tensor -> string -> result (BatchEncoding Tensor);
  (* tokenizer.batch_decode(ids, skip_special_tokens=...) *)
  batch_decode : Tokenizer -> Tensor -> bool -> result (list string);
  (* TokenImportancesExtractor(model_name), .to(device), .forward(ids, mask) *)
  TokenImportancesExtractor : string -> result Extractor;
  extractor_to : Extractor -> string -> result Extractor;
  extractor_forward : Extractor -> Tensor -> Tensor -> result Tensor;
  (* build_encoder_decoder(model_name=...), .to(device),
     .generate(ids, token_importances=..., **kwargs) *)
  build_encoder_decoder : string -> result (EncoderDecoder Net);
  encoder_decoder_to : Net -> string -> result Net;
  encoder_decoder_generate :
    EncoderDecoder Net -> Tensor -> Tensor -> pydict -> result Tensor;
  (* torch.load(path) *)
  torch_load : string -> result StateDict;
  (* module.load_state_dict(snapshot): the module as the call leaves it, and
     whether the call raised *)
  extractor_load_state_dict : Extractor -> StateDict -> Extractor * result unit;
  encoder_decoder_load_state_dict : Net -> StateDict -> Net * result unit
}.

(** ** The facade *)

Section Facade.
Context `{B : Backend}.

(** The attributes of a [Model] instance.  [generation_params] does not
    exist until [generate] first assigns it. *)
Record Model : Type := {
  model_name : string;
  device : string;
  token_importances_extractor : Extractor;
  encoder_decoder : EncoderDecoder Net;
  tokenizer : Tokenizer;
  generation_params : option pydict
}.

(** The external calls a method makes, in order. *)
Inductive Call : Type :=
| CallTokenizer (tok : Tokenizer) (args : tokenizer_args)
| CallEncodingTo (inputs : BatchEncoding Tensor) (dev : string)
| CallExtractorForward (ex : Extractor) (ids mask : Tensor)
| CallGenerate (ed : EncoderDecoder Net) (ids token_importances : Tensor)
               (kwargs : pydict)
| CallBatchDecode (tok : Tokenizer) (ids : Tensor) (skip_special_tokens : bool)
| CallTorchLoad (path : string)
| CallExtractorLoadStateDict (ex : Extractor) (snapshot : StateDict)
| CallEncoderDecoderLoadStateDict (net : Net) (snapshot : StateDict).

(** How a method call ends: the instance as it leaves it, the external
    calls it made, and what it returned or raised. *)
Record Outcome (A : Type) : Type := {
  final : Model;
  calls : list Call;
  value : result A
}.
Arguments final {A} _.
Arguments calls {A} _.
Arguments value {A} _.

(** A method body: a computation on [self]. *)
Definition Method (A : Type) : Type := Model -> Outcome A.

#[global] Instance method_ret : MRet Method := fun A a self =>
  {| final := self; calls := []; value := Ok a |}.

#[global] Instance method_bind : MBind Method := fun A B f m self =>
  let o := m self in
  match value o with
  | Ok a =>
      let o' := f a (final o) in
      {| final := final o'; calls := calls o ++ calls o'; value := value o' |}
  | Raise e => {| final := final o; calls := calls o; value := Raise e |}
  end.

(** Reading [self]. *)
Definition get_self : Method Model := fun self =>
  {| final := self; calls := []; value := Ok self |}.

(** An external call with its outcome. *)
Definition call {A} (c : Call) (r : result A) : Method A := fun self =>
  {| final := self; calls := [c]; value := r |}.

(** [raise e] in Python code of the facade itself. *)
Definition raise {A} (e : exn) : Method A := fun self =>
  {| final := self; calls := []; value := Raise e |}.

(** [self] with another value in the attribute [generation_params]. *)
Definition with_generation_params (gp : option pydict) (self : Model) : Model :=
  {| model_name := model_name self;
     device := device self;
     token_importances_extractor := token_importances_extractor self;
     encoder_decoder := encoder_decoder self;
     tokenizer := tokenizer self;
     generation_params := gp |}.

(** [self] with another extractor module. *)
Definition with_extractor (ex : Extractor) (self : Model) : Model :=
  {| model_name := model_name self;
     device := device self;
     token_importances_extractor := ex;
     encoder_decoder := encoder_decoder self;
     tokenizer := tokenizer self;
     generation_params := generation_params self |}.

(** [self] with another network inside the encoder-decoder. *)
Definition with_network (net : Net) (self : Model) : Model :=
  {| model_name := model_name self;
     device := device self;
     token_importances_extractor := token_importances_extractor self;
     encoder_decoder :=
       {| network := net; config := config (encoder_decoder self) |};
     tokenizer := tokenizer self;
     generation_params := generation_params self |}.

(** [self.generation_params = gp]. *)
Definition set_generation_params (gp : pydict) : Method unit := fun self =>
  {| final := with_generation_params (Some gp) self;
     calls := []; value := Ok tt |}.

(** The module [self.token_importances_extractor] as a call left it. *)
Definition set_token_importances_extractor (ex : Extractor) : Method unit :=
  fun self =>
  {| final := with_extractor ex self; calls := []; value := Ok tt |}.

(** The network of [self.encoder_decoder] as a call left it. *)
Definition set_encoder_decoder_network (net : Net) : Method unit := fun self =>
  {| final := with_network net self; calls := []; value := Ok tt |}.

(** *** Generation options *)

(** [{ 'do_sample': False, 'num_beams': 3, 'repetition_penalty': 2. }] *)
Definition default_generation_params : pydict :=
  {[ "do_sample" := PyBool false;
     "num_beams" := PyInt 3;
     "repetition_penalty" := PyFloat 2 ]}.

(** [generate], lines 120-122: the dictionary the rest of the call uses. *)
Definition effective_generation_params (generation_params : option pydict)
  : pydict :=
  match generation_params with
  | None => default_generation_params
  | Some supplied => supplied
  end.

(** *** History linearization *)

(** The wire format of a history: turns separated by [' <sep> ']. *)
Definition history_separator : string := " <sep> ".

(** [f' {self.tokenizer.sep_token} '] *)
Definition separator (tok : Tokenizer) : string :=
  " " +:+ PyStr.format (sep_token tok) +:+ " ".

(** [generate], lines 126-131, on a batch: every history is split on
    [' <sep> '], then for each pair [q, h] of [zip(question, history)] the
    query is [q], followed by [separator] if [len(h)] is not zero and by
    nothing otherwise, followed by [separator.join(h)]. *)
Definition generate_question_and_history (tok : Tokenizer)
    (question : list string) (history : option (list string)) : list string :=
  match history with
  | Some history =>
      let history := (fun h => PyStr.split h history_separator) <$> history in
      let separator := separator tok in
      (fun qh : string * list string =>
         let (q, h) := qh in
         q +:+ (if Nat.eqb (length h) 0 then EmptyString else separator)
           +:+ PyStr.join separator h) <$> zip question history
  | None => question
  end.

(** [compute_token_importances], lines 179-184, on one sample. *)
Definition compute_question_and_history (tok : Tokenizer)
    (question : string) (history : option string) : string :=
  match history with
  | Some history =>
      let history := PyStr.split history history_separator in
      let separator := separator tok in
      question +:+ (if Nat.eqb (length history) 0 then EmptyString else separator)
        +:+ PyStr.join separator history
  | None => question
  end.

(** *** The methods *)

(** [Model.__init__].  A constructor that raises leaves no instance. *)
Definition init (model_name : string) (tokenizer : option Tokenizer)
    (device : string) : result Model :=
  extractor ← TokenImportancesExtractor model_name;
  extractor ← extractor_to extractor device;
  encoder_decoder ← build_encoder_decoder model_name;
  net ← encoder_decoder_to (network encoder_decoder) device;
  tokenizer ← match tokenizer with
              | None => AutoTokenizer_from_pretrained model_name
              | Some tokenizer => Ok tokenizer
              end;
  Ok {| model_name := model_name;
        device := device;
        token_importances_extractor := extractor;
        encoder_decoder :=
          {| network := net;
             config := {| decoder_start_token_id := cls_token_id tokenizer;
                          pad_token_id := tokenizer_pad_token_id tokenizer |} |};
        tokenizer := tokenizer;
        generation_params := None |}.

(** What [generate] returns: the answers, with the importances when
    [return_importances] is set. *)
Inductive generated : Type :=
| Text (generated_text : list string)
| TextAndImportances (generated_text : list string)
                     (token_importances_output : Tensor).

(** The keyword [token_importances] is given explicitly in the call of
    [encoder_decoder.generate]; Python refuses a [**kwargs] that names it
    again. *)
Definition check_kwargs (kwargs : pydict) : Method unit :=
  match kwargs !! "token_importances" with
  | Some _ => raise (Exception "TypeError: got multiple values for keyword argument 'token_importances'")
  | None => mret tt
  end.

(** [Model.generate]. *)
Definition generate (passage question : list string)
    (history : option (list string)) (generation_params : option pydict)
    (return_importances : bool) : Method generated :=
  let generation_params := effective_generation_params generation_params in
  _ ← set_generation_params generation_params;
  self ← get_self;
  let question_and_history :=
    generate_question_and_history (tokenizer self) question history in
  let args :=
    {| text := StrBatch question_and_history;
       text_pair := StrBatch passage;
       max_length := 512;
       truncation := true;
       padding := true;
       return_tensors := "pt" |} in
  inputs ← call (CallTokenizer (tokenizer self) args)
                (tokenizer_call (tokenizer self) args);
  inputs ← call (CallEncodingTo inputs (device self))
                (encoding_to inputs (device self));
  token_importances_output ←
    call (CallExtractorForward (token_importances_extractor self)
            (input_ids inputs) (attention_mask inputs))
         (extractor_forward (token_importances_extractor self)
            (input_ids inputs) (attention_mask inputs));
  _ ← check_kwargs generation_params;
  generated_ids ←
    call (CallGenerate (encoder_decoder self) (input_ids inputs)
            token_importances_output generation_params)
         (encoder_decoder_generate (encoder_decoder self) (input_ids inputs)
            token_importances_output generation_params);
  generated_text ←
    call (CallBatchDecode (tokenizer self) generated_ids true)
         (batch_decode (tokenizer self) generated_ids true);
  mret (if return_importances
        then TextAndImportances generated_text token_importances_output
        else Text generated_text).

(** [Model.compute_token_importances]. *)
Definition compute_token_importances (passage question : string)
    (history : option string) : Method Tensor :=
  self ← get_self;
  let question_and_history :=
    compute_question_and_history (tokenizer self) question history in
  let args :=
    {| text := Str question_and_history;
       text_pair := Str passage;
       max_length := 512;
       truncation := true;
       padding := true;
       return_tensors := "pt" |} in
  inputs ← call (CallTokenizer (tokenizer self) args)
                (tokenizer_call (tokenizer self) args);
  inputs ← call (CallEncodingTo inputs (device self))
                (encoding_to inputs (device self));
  token_importances_output ←
    call (CallExtractorForward (token_importances_extractor self)
            (input_ids inputs) (attention_mask inputs))
         (extractor_forward (token_importances_extractor self)
            (input_ids inputs) (attention_mask inputs));
  mret token_importances_output.

(** [Model.load_weigths]. *)
Definition load_weigths (tokenImportancesExtractor_weigths_path
    encoderDecoder_weigths_path : string) : Method unit :=
  snapshot ← call (CallTorchLoad tokenImportancesExtractor_weigths_path)
                  (torch_load tokenImportancesExtractor_weigths_path);
  self ← get_self;
  let loaded :=
    extractor_load_state_dict (token_importances_extractor self) snapshot in
  _ ← set_token_importances_extractor loaded.1;
  _ ← call (CallExtractorLoadStateDict (token_importances_extractor self) snapshot)
           loaded.2;
  snapshot ← call (CallTorchLoad encoderDecoder_weigths_path)
                  (torch_load encoderDecoder_weigths_path);
  self ← get_self;
  let loaded :=
    encoder_decoder_load_state_dict (network (encoder_decoder self)) snapshot in
  _ ← set_encoder_decoder_network loaded.1;
  call (CallEncoderDecoderLoadStateDict (network (encoder_decoder self)) snapshot)
       loaded.2.

End Facade.

Arguments final {B A} _.
Arguments calls {B A} _.
Arguments value {B A} _.

(** ** Notions the properties are stated with *)

(** The linearized query as the design describes it: the question, then
    every turn prefixed by one separator. *)
Definition spec_linearize (sep question : string) (turns : list string)
  : string :=
  foldl (fun acc turn => acc +:+ sep +:+ turn) question turns.

(** A turn that cannot be mistaken for part of the wire separator: it holds
    no ['<']. *)
Definition turn_without_marker (turn : string) : Prop :=
  PyStr.contains_char "<"%char turn = false.

(** A text that does not hold the character [c]. *)
Definition without_char (c : ascii) (s : string) : Prop :=
  PyStr.contains_char c s = false.

(** The characters of a list of texts, all together. *)
Definition total_length (pieces : list string) : nat :=
  foldr (fun piece n => String.length piece + n) 0 pieces.

(** The options bag as the design describes it: the defaults, overridden key
    by key by whatever the caller supplies. *)
Definition spec_generation_params (supplied : option pydict) : pydict :=
  default (∅ : pydict) supplied ∪ default_generation_params.

(** A tokenizer call on one sample, read as the call on the batch that holds
    only that sample. *)
Definition as_batch_input (t : text_input) : text_input :=
  match t with
  | Str s => StrBatch [s]
  | StrBatch batch => StrBatch batch
  end.

Definition as_batch (args : tokenizer_args) : tokenizer_args :=
  {| text := as_batch_input (text args);
     text_pair := as_batch_input (text_pair args);
     max_length := max_length args;
     truncation := truncation args;
     padding := padding args;
     return_tensors := return_tensors args |}.

Section Observations.
Context `{B : Backend}.

(** An outcome, with one more call recorded before those it made. *)
Definition after_call {A} (c : Call) (o : Outcome A) : Outcome A :=
  {| final := final o; calls := c :: calls o; value := value o |}.

Definition is_tokenizer_call (c : Call) : bool :=
  match c with
  | CallTokenizer _ _ => true
  | _ => false
  end.

Definition is_generate_call (c : Call) : bool :=
  match c with
  | CallGenerate _ _ _ _ => true
  | _ => false
  end.

(** A recorded call, with a single-sample tokenizer call read as the call on
    the batch of one. *)
Definition as_batch_call (c : Call) : Call :=
  match c with
  | CallTokenizer tok args => CallTokenizer tok (as_batch args)
  | other => other
  end.

(** The importances a [generate] call computed, when it returned them. *)
Definition importances_of (r : result generated) : option Tensor :=
  match r with
  | Ok (TextAndImportances _ scores) => Some scores
  | _ => None
  end.

End Observations.

(** ** A small concrete backend

    Token ids are the lengths of the two texts of a pair, clipped to
    [max_length]; a snapshot is a number, and loading one replaces the
    module's number.  Used to run the methods on concrete inputs. *)

Module Toy.

Record tokenizer_t : Type := {
  sep : option string;
  cls : option Z;
  pad : option Z
}.

Definition bert_tokenizer : tokenizer_t :=
  {| sep := Some "[SEP]"; cls := Some 101%Z; pad := Some 0%Z |}.

Definition roberta_tokenizer : tokenizer_t :=
  {| sep := Some "</s>"; cls := Some 0%Z; pad := Some 1%Z |}.

Definition supported (name : string) : bool :=
  String.eqb name "prajjwal1/bert-tiny" || String.eqb name "distilroberta-base".

Definition from_pretrained (name : string) : result tokenizer_t :=
  if String.eqb name "prajjwal1/bert-tiny" then Ok bert_tokenizer
  else if String.eqb name "distilroberta-base" then Ok roberta_tokenizer
  else Raise (Exception "OSError: unknown model").

Definition encode_pair (args : tokenizer_args) (pair : string * string)
  : list Z :=
  let clip (n : Z) := if truncation args then Z.min n (max_length args) else n in
  [clip (Z.of_nat (String.length pair.1)); clip (Z.of_nat (String.length pair.2))].

Definition batch_of (t : text_input) : list string :=
  match t with
  | Str s => [s]
  | StrBatch batch => batch
  end.

Definition tokenize (tok : tokenizer_t) (args : tokenizer_args)
  : result (BatchEncoding (list (list Z))) :=
  let texts := batch_of (text args) in
  let pairs := batch_of (text_pair args) in
  if Nat.eqb (length texts) (length pairs)
  then Ok {| input_ids := encode_pair args <$> zip texts pairs;
             attention_mask := (fun _ => [1%Z; 1%Z]) <$> texts |}
  else Raise (Exception "ValueError: batch length of text and text_pair differ").

Definition load (path : string) : result Z :=
  if String.eqb path "missing.pt"
  then Raise (Exception "FileNotFoundError")
  else Ok (Z.of_nat (String.length path)).

Definition decode (ids : list (list Z)) : result (list string) :=
  Ok ((fun _ => "answer") <$> ids).

Definition forward (ex : Z) (ids : list (list Z)) : result (list (list Z)) :=
  Ok ((fun row : list Z => Z.add (ex + 1) <$> row) <$> ids).

#[export] Instance backend : Backend := {|
  Tokenizer := tokenizer_t;
  Tensor := list (list Z);
  Extractor := Z;
  Net := Z;
  StateDict := Z;
  AutoTokenizer_from_pretrained := from_pretrained;
  sep_token := sep;
  cls_token_id := cls;
  tokenizer_pad_token_id := pad;
  tokenizer_call := tokenize;
  encoding_to := fun inputs _ => Ok inputs;
  batch_decode := fun _ ids _ => decode ids;
  TokenImportancesExtractor := fun name =>
    if supported name then Ok 0%Z
    else Raise (Exception "OSError: unknown model");
  extractor_to := fun ex _ => Ok ex;
  extractor_forward := fun ex ids _ => forward ex ids;
  build_encoder_decoder := fun name =>
    if supported name
    then Ok {| network := 0%Z;
               config := {| decoder_start_token_id := None;
                            pad_token_id := None |} |}
    else Raise (Exception "OSError: unknown model");
  encoder_decoder_to := fun net _ => Ok net;
  encoder_decoder_generate := fun _ ids _ _ => Ok ids;
  torch_load := load;
  extractor_load_state_dict := fun _ snapshot => (snapshot, Ok tt);
  encoder_decoder_load_state_dict := fun _ snapshot => (snapshot, Ok tt)
|}.

(** A constructed model and some arguments. *)
Definition model : Model :=
  {| model_name := "prajjwal1/bert-tiny";
     device := "cpu";
     token_importances_extractor := 0%Z;
     encoder_decoder :=
       {| network := 0%Z;
          config := {| decoder_start_token_id := Some 101%Z;
                       pad_token_id := Some 0%Z |} |};
     tokenizer := bert_tokenizer;
     generation_params := None |}.

Definition passage : string := "The capital of France is Paris.".
Definition question : string := "What is the capital of France?".
Definition history : string := "Where is Paris? <sep> In France.".

End Toy.

(** ** Call outcomes and sequences of method calls *)

Section Protocol.
Context `{B : Backend}.

(** The exception a recorded call ended with, if it raised. *)
Definition error_of {A} (r : result A) : option exn :=
  match r with
  | Ok _ => None
  | Raise e => Some e
  end.

Definition call_error (c : Call) : option exn :=
  match c with
  | CallTokenizer tok args => error_of (tokenizer_call tok args)
  | CallEncodingTo inputs dev => error_of (encoding_to inputs dev)
  | CallExtractorForward ex ids mask => error_of (extractor_forward ex ids mask)
  | CallGenerate ed ids scores kwargs =>
      error_of (encoder_decoder_generate ed ids scores kwargs)
  | CallBatchDecode tok ids skip => error_of (batch_decode tok ids skip)
  | CallTorchLoad path => error_of (torch_load path)
  | CallExtractorLoadStateDict ex snapshot =>
      error_of (extractor_load_state_dict ex snapshot).2
  | CallEncoderDecoderLoadStateDict net snapshot =>
      error_of (encoder_decoder_load_state_dict net snapshot).2
  end.

(** The calls [compute_token_importances] is made of. *)
Definition is_extraction_call (c : Call) : bool :=
  match c with
  | CallTokenizer _ _ | CallEncodingTo _ _ | CallExtractorForward _ _ _ => true
  | _ => false
  end.

(** The tokenizer call of [generate]. *)
Definition generate_tokenizer_args (self : Model) (passage question : list string)
    (history : option (list string)) : tokenizer_args :=
  {| text := StrBatch (generate_question_and_history (tokenizer self)
                         question history);
     text_pair := StrBatch passage;
     max_length := 512;
     truncation := true;
     padding := true;
     return_tensors := "pt" |}.

(** The tokenizer call of [compute_token_importances]. *)
Definition compute_tokenizer_args (self : Model) (passage question : string)
    (history : option string) : tokenizer_args :=
  {| text := Str (compute_question_and_history (tokenizer self)
                    question history);
     text_pair := Str passage;
     max_length := 512;
     truncation := true;
     padding := true;
     return_tensors := "pt" |}.

(** The decoder's special-token ids agree with the tokenizer's. *)
Definition synchronized (m : Model) : Prop :=
  decoder_start_token_id (config (encoder_decoder m))
    = cls_token_id (tokenizer m)
  /\ pad_token_id (config (encoder_decoder m))
     = tokenizer_pad_token_id (tokenizer m).

(** One call of a method of the instance, whatever its arguments and however
    it ends. *)
Inductive method_call : Model -> Model -> Prop :=
| method_generate passage question history gp return_importances self :
    method_call self
      (final (generate passage question history gp return_importances self))
| method_compute_token_importances passage question history self :
    method_call self
      (final (compute_token_importances passage question history self))
| method_load_weigths path1 path2 self :
    method_call self (final (load_weigths path1 path2 self)).


End Protocol.

(** * Properties *)

(** ** Python strings *)

Section PyStrFacts.
Import PyStr.
#[local] Arguments String.append !_ _ / : simpl nomatch.

Lemma append_empty_r (s : string) : s +:+ EmptyString = s.
Proof. induction s as [|c s IH]; simpl; [done | by rewrite IH]. Qed.

Lemma append_assoc (a b c : string) : (a +:+ b) +:+ c = a +:+ b +:+ c.
Proof. induction a as [|x a IH]; simpl; [done | by rewrite IH]. Qed.

Lemma length_append (a b : string) :
  String.length (a +:+ b) = String.length a + String.length b.
Proof. induction a as [|x a IH]; simpl; [done | by rewrite IH]. Qed.

Lemma append_eq_self (a b : string) : a +:+ b = a -> b = EmptyString.
Proof.
  intros H. apply (f_equal String.length) in H. rewrite length_append in H.
  destruct b; [done | simpl in H; lia].
Qed.

(** [strip_prefix] succeeds exactly on the strings that start with [p]. *)
Lemma strip_prefix_Some (p s rest : string) :
  strip_prefix p s = Some rest <-> s = p +:+ rest.
Proof.
  revert s. induction p as [|a p IH]; intros s; simpl.
  - split; [by intros [= ->] | by intros ->].
  - destruct s as [|b s]; [split; discriminate |].
    destruct (Ascii.eqb_spec a b) as [->|Hne].
    + rewrite IH. split; [by intros -> | by intros [= ->]].
    + split; [discriminate | intros [= -> _]; done].
Qed.

Lemma strip_prefix_append (p rest : string) :
  strip_prefix p (p +:+ rest) = Some rest.
Proof. by apply strip_prefix_Some. Qed.

(** A prefix of [s] is a prefix of [s] followed by anything. *)
Lemma strip_prefix_None_append (p s t : string) :
  strip_prefix p (s +:+ t) = None -> strip_prefix p s = None.
Proof.
  destruct (strip_prefix p s) as [rest|] eqn:E; [|done].
  apply strip_prefix_Some in E. subst s. rewrite append_assoc.
  by rewrite strip_prefix_append.
Qed.

(** [partition] cuts the string around an occurrence of the separator. *)
Lemma partition_Some (sep s before after : string) :
  partition sep s = Some (before, after) -> s = before +:+ sep +:+ after.
Proof.
  revert before. induction s as [|c s IH]; intros before; simpl.
  - destruct (strip_prefix sep EmptyString) as [rest|] eqn:E; [|done].
    intros [= <- <-]. by apply strip_prefix_Some in E.
  - destruct (strip_prefix sep (String c s)) as [rest|] eqn:E.
    + intros [= <- <-]. by apply strip_prefix_Some in E.
    + destruct (partition sep s) as [[b a]|]; [|done].
      intros [= <- <-]. simpl. f_equal. by apply IH.
Qed.

(** The occurrence [partition] cuts at is the leftmost one: the text before
    it holds no occurrence. *)
Lemma partition_before (sep s before after : string) :
  sep <> EmptyString ->
  partition sep s = Some (before, after) -> partition sep before = None.
Proof.
  intros Hsep. revert before. induction s as [|c s IH]; intros before; simpl.
  - destruct sep; [done | simpl; discriminate].
  - destruct (strip_prefix sep (String c s)) as [rest|] eqn:E.
    + intros [= <- <-]. destruct sep; [done | reflexivity].
    + destruct (partition sep s) as [[b a]|] eqn:P; [|done].
      intros [= <- <-]. simpl.
      pose proof (partition_Some _ _ _ _ P) as ->.
      change (String c (b +:+ sep +:+ a)) with (String c b +:+ sep +:+ a) in E.
      apply strip_prefix_None_append in E. rewrite E.
      by rewrite (IH b eq_refl).
Qed.

(** What follows a cut is shorter than what was cut. *)
Lemma partition_shorter (sep s before after : string) :
  sep <> EmptyString ->
  partition sep s = Some (before, after) ->
  String.length after < String.length s.
Proof.
  intros Hsep H. apply partition_Some in H. subst s.
  rewrite !length_append. destruct sep; [done | simpl; lia].
Qed.

(** [split] always returns at least one piece. *)
Lemma split_loop_nonempty (fuel : nat) (sep s : string) :
  1 <= length (split_loop fuel sep s).
Proof.
  destruct fuel; simpl; [lia |].
  destruct (partition sep s) as [[b a]|]; simpl; lia.
Qed.

(** The number of cuts never exceeds the length of the text, so the fuel
    [split] gives its loop is enough: more fuel changes nothing. *)
Lemma split_loop_enough (sep : string) (n m : nat) (s : string) :
  sep <> EmptyString ->
  String.length s <= n -> String.length s <= m ->
  split_loop n sep s = split_loop m sep s.
Proof.
  intros Hsep. revert m s. induction n as [|n IH]; intros m s Hn Hm.
  - destruct s; [|simpl in Hn; lia].
    destruct m; simpl; [done |].
    destruct sep; [done | reflexivity].
  - simpl. destruct (partition sep s) as [[b a]|] eqn:P.
    + pose proof (partition_shorter _ _ _ _ Hsep P) as Hlt.
      destruct m; [lia |]. simpl. rewrite P. f_equal.
      apply IH; lia.
    + destruct m; simpl; [done | by rewrite P].
Qed.

(** Joining the pieces with the separator gives the text back. *)
Lemma join_split_loop (fuel : nat) (sep s : string) :
  join sep (split_loop fuel sep s) = s.
Proof.
  revert s. induction fuel as [|fuel IH]; intros s; simpl; [done |].
  destruct (partition sep s) as [[b a]|] eqn:P; [|done].
  specialize (IH a). unfold join in *. simpl.
  pose proof (split_loop_nonempty fuel sep a) as Hne.
  destruct (split_loop fuel sep a) as [|x l] eqn:E; [simpl in Hne; lia |].
  rewrite IH. symmetry. by apply partition_Some.
Qed.

Lemma join_split (s sep : string) : join sep (split s sep) = s.
Proof. apply join_split_loop. Qed.

Lemma split_nonempty (s sep : string) : 1 <= length (split s sep).
Proof. apply split_loop_nonempty. Qed.

(** No piece of [split] holds an occurrence of the separator: the loop never
    stops for lack of fuel. *)
Lemma split_pieces_whole (s sep : string) :
  sep <> EmptyString ->
  Forall (fun piece => partition sep piece = None) (split s sep).
Proof.
  intros Hsep. unfold split.
  assert (G : forall n s, String.length s <= n ->
             Forall (fun piece => partition sep piece = None) (split_loop n sep s)).
  { clear s. induction n as [|n IH]; intros s Hn.
    - destruct s; [|simpl in Hn; lia]. simpl. constructor; [|constructor].
      destruct sep; [done | reflexivity].
    - simpl. destruct (partition sep s) as [[b a]|] eqn:P.
      + constructor; [by eapply partition_before |].
        apply IH. pose proof (partition_shorter _ _ _ _ Hsep P). lia.
      + by constructor. }
  by apply G.
Qed.

(** *** Histories whose turns hold no ['<'] *)

Lemma strip_history_separator (s rest : string) :
  strip_prefix history_separator s = Some rest ->
  exists a s', s = String a (String "<"%char s').
Proof.
  intros H. apply strip_prefix_Some in H. subst s.
  by exists " "%char, ("sep> " +:+ rest).
Qed.

Lemma strip_history_separator_turn (turn after : string) :
  turn <> EmptyString -> turn_without_marker turn ->
  strip_prefix history_separator (turn +:+ history_separator +:+ after) = None.
Proof.
  intros Hne Hfree.
  destruct (strip_prefix _ _) as [rest|] eqn:E; [|done].
  apply strip_history_separator in E as (a & s' & E).
  unfold turn_without_marker in Hfree.
  destruct turn as [|x [|y turn]]; [done | |].
  - discriminate E.
  - injection E as _ -> _. simpl in Hfree.
    rewrite orb_true_r in Hfree. discriminate.
Qed.

Lemma partition_turn_without_marker (turn : string) :
  turn_without_marker turn -> partition history_separator turn = None.
Proof.
  unfold turn_without_marker.
  induction turn as [|c turn IH]; intros Hfree; [reflexivity |].
  cbn [partition].
  destruct (strip_prefix history_separator (String c turn)) as [rest|] eqn:E.
  - apply strip_history_separator in E as (a & s' & [= -> ->]).
    simpl in Hfree. rewrite orb_true_r in Hfree. discriminate.
  - simpl in Hfree. apply orb_false_elim in Hfree as [_ Hfree].
    by rewrite (IH Hfree).
Qed.

Lemma partition_first_turn (turn after : string) :
  turn_without_marker turn ->
  partition history_separator (turn +:+ history_separator +:+ after)
  = Some (turn, after).
Proof.
  induction turn as [|c turn IH]; intros Hfree.
  - change (EmptyString +:+ history_separator +:+ after)
      with (history_separator +:+ after).
    destruct after; reflexivity.
  - pose proof (strip_history_separator_turn (String c turn) after
                  ltac:(done) Hfree) as E.
    change (String c turn +:+ history_separator +:+ after)
      with (String c (turn +:+ history_separator +:+ after)) in *.
    cbn [partition]. rewrite E.
    unfold turn_without_marker in Hfree. simpl in Hfree.
    apply orb_false_elim in Hfree as [_ Hfree].
    by rewrite (IH Hfree).
Qed.

Lemma join_cons_cons (sep a b : string) (l : list string) :
  join sep (a :: b :: l) = a +:+ sep +:+ join sep (b :: l).
Proof. reflexivity. Qed.

Lemma turns_le_length_join (turns : list string) :
  length turns <= S (String.length (join history_separator turns)).
Proof.
  induction turns as [|a [|b l] IH]; [simpl; lia | simpl; lia |].
  rewrite join_cons_cons, !length_append.
  change (length (a :: b :: l)) with (S (length (b :: l))).
  change (String.length history_separator) with 7. lia.
Qed.

Lemma split_loop_join_turns (turns : list string) (fuel : nat) :
  turns <> [] -> Forall turn_without_marker turns ->
  length turns <= S fuel ->
  split_loop fuel history_separator (join history_separator turns) = turns.
Proof.
  revert fuel. induction turns as [|a [|b l] IH]; intros fuel Hne Hfree Hfuel.
  - done.
  - apply Forall_inv in Hfree. change (join history_separator [a]) with a.
    destruct fuel; [done |]. cbn [split_loop].
    by rewrite partition_turn_without_marker.
  - rewrite join_cons_cons.
    destruct fuel; [simpl in Hfuel; lia |]. cbn [split_loop].
    rewrite partition_first_turn by (by apply Forall_inv in Hfree).
    f_equal. apply IH; [done | by apply Forall_inv_tail in Hfree |].
    simpl in *. lia.
Qed.

(** A history written as turns joined by [' <sep> '] splits back into exactly
    those turns. *)
Lemma split_join_turns (turns : list string) :
  turns <> [] -> Forall turn_without_marker turns ->
  split (join history_separator turns) history_separator = turns.
Proof.
  intros Hne Hfree. apply split_loop_join_turns; [done | done |].
  apply turns_le_length_join.
Qed.

(** *** The linearized text *)

Lemma spec_linearize_join (sep question : string) (turns : list string) :
  question +:+ (if Nat.eqb (length turns) 0 then EmptyString else sep)
    +:+ join sep turns
  = spec_linearize sep question turns.
Proof.
  unfold spec_linearize.
  revert question. induction turns as [|a [|b l] IH]; intros question.
  - simpl. apply append_empty_r.
  - reflexivity.
  - rewrite join_cons_cons.
    change (foldl _ question (a :: b :: l))
      with (foldl (fun acc turn => acc +:+ sep +:+ turn)
              (question +:+ sep +:+ a) (b :: l)).
    rewrite <- IH.
    change (Nat.eqb (length (a :: b :: l)) 0) with false.
    change (Nat.eqb (length (b :: l)) 0) with false.
    cbv iota. by rewrite !append_assoc.
Qed.

(** The linearized text is the question, the turns, and one separator per
    turn, nothing more. *)
Lemma spec_linearize_length (sep question : string) (turns : list string) :
  String.length (spec_linearize sep question turns)
  = String.length question + total_length turns
    + length turns * String.length sep.
Proof.
  unfold spec_linearize.
  revert question. induction turns as [|a l IH]; intros question; simpl.
  - lia.
  - rewrite IH, !length_append. lia.
Qed.

End PyStrFacts.

(** ** Separators that start with a space and a marking character *)

Section MarkedSeparators.
Import PyStr.
#[local] Arguments String.append !_ _ / : simpl nomatch.

Variables (c : ascii) (tail : string).
Hypothesis c_not_space : c <> " "%char.

Lemma partition_unfold (sep s : string) :
  partition sep s
  = match strip_prefix sep s with
    | Some rest => Some (EmptyString, rest)
    | None =>
        match s with
        | EmptyString => None
        | String x s' =>
            match partition sep s' with
            | Some (before, after) => Some (String x before, after)
            | None => None
            end
        end
    end.
Proof. destruct s; reflexivity. Qed.

Lemma strip_marked_separator (s rest : string) :
  strip_prefix (String " " (String c tail)) s = Some rest ->
  exists a s', s = String a (String c s').
Proof.
  intros H. apply strip_prefix_Some in H. subst s.
  by exists " "%char, (tail +:+ rest).
Qed.

Lemma strip_marked_separator_piece (piece after : string) :
  piece <> EmptyString -> without_char c piece ->
  strip_prefix (String " " (String c tail))
    (piece +:+ String " " (String c tail) +:+ after) = None.
Proof.
  intros Hne Hfree.
  destruct (strip_prefix _ _) as [rest|] eqn:E; [|done].
  apply strip_marked_separator in E as (a & s' & E).
  unfold without_char in Hfree.
  destruct piece as [|x [|y piece]]; [done | |].
  - injection E as _ E _. by symmetry in E.
  - injection E as _ -> _. simpl in Hfree.
    rewrite Ascii.eqb_refl, orb_true_r in Hfree. discriminate.
Qed.

Lemma partition_piece_without_char (piece : string) :
  without_char c piece ->
  partition (String " " (String c tail)) piece = None.
Proof.
  unfold without_char.
  induction piece as [|x piece IH]; intros Hfree; [reflexivity |].
  rewrite partition_unfold.
  destruct (strip_prefix _ (String x piece)) as [rest|] eqn:E.
  - apply strip_marked_separator in E as (a & s' & [= -> ->]).
    simpl in Hfree. rewrite Ascii.eqb_refl, orb_true_r in Hfree. discriminate.
  - simpl in Hfree. apply orb_false_elim in Hfree as [_ Hfree].
    by rewrite (IH Hfree).
Qed.

Lemma partition_first_piece (piece after : string) :
  without_char c piece ->
  partition (String " " (String c tail))
    (piece +:+ String " " (String c tail) +:+ after)
  = Some (piece, after).
Proof.
  induction piece as [|x piece IH]; intros Hfree.
  - rewrite partition_unfold.
    change (EmptyString +:+ String " " (String c tail) +:+ after)
      with (String " " (String c tail) +:+ after).
    by rewrite strip_prefix_append.
  - pose proof (strip_marked_separator_piece (String x piece) after
                  ltac:(done) Hfree) as E.
    rewrite partition_unfold, E.
    change (String x piece +:+ String " " (String c tail) +:+ after)
      with (String x (piece +:+ String " " (String c tail) +:+ after)).
    cbv iota.
    unfold without_char in Hfree. simpl in Hfree.
    apply orb_false_elim in Hfree as [_ Hfree].
    by rewrite (IH Hfree).
Qed.

Lemma pieces_le_length_join (pieces : list string) :
  length pieces
  <= S (String.length (join (String " " (String c tail)) pieces)).
Proof.
  induction pieces as [|a [|b l] IH]; [simpl; lia | simpl; lia |].
  rewrite join_cons_cons, !length_append.
  change (length (a :: b :: l)) with (S (length (b :: l))).
  simpl String.length at 2. lia.
Qed.

Lemma split_loop_join_pieces (pieces : list string) (fuel : nat) :
  pieces <> [] -> Forall (without_char c) pieces ->
  length pieces <= S fuel ->
  split_loop fuel (String " " (String c tail))
    (join (String " " (String c tail)) pieces) = pieces.
Proof.
  revert fuel. induction pieces as [|a [|b l] IH]; intros fuel Hne Hfree Hfuel.
  - done.
  - apply Forall_inv in Hfree.
    change (join (String " " (String c tail)) [a]) with a.
    destruct fuel; [done |]. cbn [split_loop].
    by rewrite partition_piece_without_char.
  - rewrite join_cons_cons.
    destruct fuel; [simpl in Hfuel; lia |]. cbn [split_loop].
    rewrite partition_first_piece by (by apply Forall_inv in Hfree).
    f_equal. apply IH; [done | by apply Forall_inv_tail in Hfree |].
    simpl in *. lia.
Qed.

(** Pieces free of the character that follows the separator's leading space
    are recovered by splitting their join. *)
Lemma split_join_pieces (pieces : list string) :
  pieces <> [] -> Forall (without_char c) pieces ->
  split (join (String " " (String c tail)) pieces) (String " " (String c tail))
  = pieces.
Proof.
  intros Hne Hfree. apply split_loop_join_pieces; [done | done |].
  apply pieces_le_length_join.
Qed.

End MarkedSeparators.

Section LinearizedText.
Import PyStr.

(** The linearized text is the join of the question and the turns. *)
Lemma spec_linearize_as_join (sep question : string) (turns : list string) :
  spec_linearize sep question turns = join sep (question :: turns).
Proof.
  rewrite <- spec_linearize_join. destruct turns as [|a l].
  - cbn. by rewrite !append_empty_r.
  - reflexivity.
Qed.

End LinearizedText.

(** ** Running a method *)

Section Running.
Context `{B : Backend}.

Lemma bind_set_generation_params {A} (gp : pydict) (f : unit -> Method A)
    (self : Model) :
  (set_generation_params gp ≫= f) self
  = f tt (with_generation_params (Some gp) self).
Proof.
  unfold mbind, method_bind, set_generation_params. simpl.
  by destruct (f tt _).
Qed.

Lemma bind_set_token_importances_extractor {A} (ex : Extractor)
    (f : unit -> Method A) (self : Model) :
  (set_token_importances_extractor ex ≫= f) self
  = f tt (with_extractor ex self).
Proof.
  unfold mbind, method_bind, set_token_importances_extractor. simpl.
  by destruct (f tt _).
Qed.

Lemma bind_set_encoder_decoder_network {A} (net : Net)
    (f : unit -> Method A) (self : Model) :
  (set_encoder_decoder_network net ≫= f) self = f tt (with_network net self).
Proof.
  unfold mbind, method_bind, set_encoder_decoder_network. simpl.
  by destruct (f tt _).
Qed.

Lemma bind_get_self {A} (f : Model -> Method A) (self : Model) :
  (get_self ≫= f) self = f self self.
Proof. unfold mbind, method_bind, get_self. simpl. by destruct (f self _). Qed.

Lemma bind_call {A C} (c : Call) (r : result A) (f : A -> Method C)
    (self : Model) :
  (call c r ≫= f) self
  = match r with
    | Ok a => after_call c (f a self)
    | Raise e => {| final := self; calls := [c]; value := Raise e |}
    end.
Proof. unfold mbind, method_bind, call. simpl. by destruct r. Qed.

Lemma bind_check_kwargs {A} (kwargs : pydict) (f : unit -> Method A)
    (self : Model) :
  (check_kwargs kwargs ≫= f) self
  = match kwargs !! "token_importances" with
    | Some _ =>
        {| final := self; calls := [];
           value := Raise (Exception "TypeError: got multiple values for keyword argument 'token_importances'") |}
    | None => f tt self
    end.
Proof.
  unfold mbind, method_bind, check_kwargs.
  destruct (kwargs !! "token_importances"); simpl; [done |].
  by destruct (f tt self).
Qed.

Lemma run_ret {A} (a : A) (self : Model) :
  (mret a : Method A) self = {| final := self; calls := []; value := Ok a |}.
Proof. reflexivity. Qed.

Lemma run_call {A} (c : Call) (r : result A) (self : Model) :
  call c r self = {| final := self; calls := [c]; value := r |}.
Proof. reflexivity. Qed.

Lemma outcome_eq {A} (o1 o2 : Outcome A) :
  final o1 = final o2 -> calls o1 = calls o2 -> value o1 = value o2 ->
  o1 = o2.
Proof. destruct o1, o2; simpl; by intros -> -> ->. Qed.

End Running.

(** Attribute reads on an updated instance, and the fields of an outcome. *)
Ltac method_simpl :=
  cbv beta zeta;
  cbn [after_call final calls value
       with_generation_params with_extractor with_network
       model_name device token_importances_extractor encoder_decoder
       tokenizer generation_params network config fst snd].

(** One statement of a method body. *)
Ltac method_step :=
  first
    [ rewrite bind_set_generation_params
    | rewrite bind_set_token_importances_extractor
    | rewrite bind_set_encoder_decoder_network
    | rewrite bind_get_self
    | rewrite bind_check_kwargs
    | rewrite bind_call
    | rewrite run_call
    | rewrite run_ret ];
  method_simpl.

(** Case analysis on the outcome of the external call just reached. *)
Ltac next_call :=
  match goal with
  | |- context [snd ?p] => destruct p eqn:?; method_simpl
  | |- context [match ?r with Ok _ => _ | Raise _ => _ end] =>
      lazymatch r with
      | value _ => fail
      | _ => destruct r eqn:?; method_simpl
      end
  | |- context [match ?o with Some _ => _ | None => _ end] =>
      destruct o eqn:?; method_simpl
  end.

(** Runs a method body down to the outcomes of its external calls. *)
Ltac run_method :=
  unfold generate, compute_token_importances, load_weigths;
  method_simpl;
  repeat (first [method_step | next_call]).

(** Membership in an explicit list of calls. *)
Ltac among_calls H :=
  repeat (apply elem_of_cons in H as [H|H]; [try discriminate H |]);
  try (by apply elem_of_nil in H).

(** ** History linearization *)

Section Linearization.
Context `{B : Backend}.

Lemma separator_not_empty (tok : Tokenizer) : separator tok <> EmptyString.
Proof. unfold separator. destruct (PyStr.format (sep_token tok)); done. Qed.

(** The batch comprehension of [generate], element by element. *)
Lemma generate_question_and_history_zip_with (tok : Tokenizer)
    (question history : list string) :
  generate_question_and_history tok question (Some history)
  = zip_with (fun q h =>
                spec_linearize (separator tok) q
                  (PyStr.split h history_separator))
      question history.
Proof.
  unfold generate_question_and_history.
  revert history. induction question as [|q question IH]; intros [|h history];
    [done.. |].
  cbn [fmap list_fmap zip zip_with]. f_equal; [|apply IH].
  apply spec_linearize_join.
Qed.

(** The single-sample expression of [compute_token_importances]. *)
Lemma compute_question_and_history_Some (tok : Tokenizer)
    (question history : string) :
  compute_question_and_history tok question (Some history)
  = spec_linearize (separator tok) question
      (PyStr.split history history_separator).
Proof. apply spec_linearize_join. Qed.

(** C1, at the input where the code departs from it.  With the empty string
    as history the linearized query is the question followed by one dangling
    separator, in [generate] and in [compute_token_importances] alike, and so
    differs from the question; only an absent history leaves the question
    unchanged.  The guard on the number of turns never fires: splitting never
    yields an empty list of turns. *)
Theorem empty_history_dangling_separator (tok : Tokenizer) (q : string) :
  generate_question_and_history tok [q] (Some [EmptyString])
    = [q +:+ separator tok]
  /\ compute_question_and_history tok q (Some EmptyString) = q +:+ separator tok
  /\ q +:+ separator tok <> q
  /\ generate_question_and_history tok [q] None = [q]
  /\ compute_question_and_history tok q None = q
  /\ (forall h : string, PyStr.split h history_separator <> []).
Proof.
  repeat split.
  - unfold generate_question_and_history. cbn.
    by rewrite append_empty_r.
  - unfold compute_question_and_history. cbn. by rewrite append_empty_r.
  - intros H. apply append_eq_self in H. by apply separator_not_empty in H.
  - intros h H. pose proof (split_nonempty h history_separator) as Hlen.
    rewrite H in Hlen. simpl in Hlen. lia.
Qed.

(** C3.  Every history is the join, with [' <sep> '], of the [k >= 1] turns it
    splits into, none of which holds the wire separator; the linearized
    query is the question followed by each of these turns prefixed by one
    inserted separator, so it is longer than the question and the turns
    together by exactly [k] inserted separators.  A history written as
    [k >= 1] turns free of ['<'] joined by [' <sep> '] splits into exactly
    those turns.  The inserted separator is the tokenizer's separator token
    between two spaces: for two turns the query reads
    [q + ' {sep} ' + turn1 + ' {sep} ' + turn2].  When the token starts with
    a character other than a space that occurs neither in the question nor
    in the turns, cutting the query at the inserted separator gives back
    the question and the [k] turns: it occurs exactly [k] times. *)
Theorem linearization_one_separator_per_turn (tok : Tokenizer) (q : string) :
  let inserted := " " +:+ PyStr.format (sep_token tok) +:+ " " in
  (forall h : string,
     let turns := PyStr.split h " <sep> " in
     1 <= length turns
     /\ String.concat " <sep> " turns = h
     /\ Forall (fun turn => PyStr.partition " <sep> " turn = None) turns
     /\ generate_question_and_history tok [q] (Some [h])
        = [spec_linearize inserted q turns]
     /\ String.length (spec_linearize inserted q turns)
        = String.length q + total_length turns
          + length turns * String.length inserted)
  /\ (forall turns : list string,
        turns <> [] -> Forall turn_without_marker turns ->
        generate_question_and_history tok [q]
          (Some [String.concat " <sep> " turns])
        = [spec_linearize inserted q turns])
  /\ (forall token : string,
        sep_token tok = Some token ->
        inserted = " " +:+ token +:+ " "
        /\ String.length inserted = 2 + String.length token
        /\ forall turn1 turn2 : string,
             spec_linearize inserted q [turn1; turn2]
             = q +:+ " " +:+ token +:+ " " +:+ turn1
                 +:+ " " +:+ token +:+ " " +:+ turn2)
  /\ (forall (c : ascii) (token : string) (turns : list string),
        sep_token tok = Some (String c token) ->
        c <> " "%char ->
        without_char c q -> Forall (without_char c) turns ->
        PyStr.split (spec_linearize inserted q turns) inserted = q :: turns
        /\ length (PyStr.split (spec_linearize inserted q turns) inserted)
           = S (length turns)).
Proof.
  intros inserted.
  change inserted with (separator tok). clear inserted.
  change " <sep> " with history_separator.
  change (String.concat history_separator) with (PyStr.join history_separator).
  split_and!.
  - intros h turns. subst turns. split_and!.
    + apply split_nonempty.
    + apply join_split.
    + by apply split_pieces_whole.
    + by rewrite generate_question_and_history_zip_with.
    + apply spec_linearize_length.
  - intros turns Hne Hfree.
    rewrite generate_question_and_history_zip_with. cbn [zip_with].
    by rewrite split_join_turns.
  - intros token Htoken. unfold separator. rewrite Htoken.
    cbn [PyStr.format]. split_and!.
    + reflexivity.
    + rewrite !length_append. simpl. lia.
    + intros turn1 turn2. unfold spec_linearize. cbn [foldl].
      by rewrite !append_assoc.
  - intros c token turns Htoken Hc Hq Hturns.
    assert (E : separator tok = String " " (String c (token +:+ " "))).
    { unfold separator. by rewrite Htoken. }
    assert (S : PyStr.split (spec_linearize (separator tok) q turns)
                  (separator tok) = q :: turns).
    { rewrite spec_linearize_as_join, E.
      apply split_join_pieces; [done | done | by constructor]. }
    split; [exact S | by rewrite S].
Qed.

(** C9.  Linearization cannot raise, whatever the two batch lengths: it
    yields as many queries as the shorter of the two batches has entries,
    those of the leading questions and histories, and [generate] goes on to
    call the tokenizer with them. *)
Theorem mismatched_history_batch_truncated (question history : list string) :
  let n := min (length question) (length history) in
  (forall tok : Tokenizer,
     length (generate_question_and_history tok question (Some history)) = n
     /\ generate_question_and_history tok question (Some history)
        = generate_question_and_history tok (take n question)
            (Some (take n history)))
  /\ (forall passage generation_params return_importances self,
        exists rest,
          calls (generate passage question (Some history) generation_params
                   return_importances self)
          = CallTokenizer (tokenizer self)
              {| text := StrBatch (generate_question_and_history
                                     (tokenizer self) question (Some history));
                 text_pair := StrBatch passage;
                 max_length := 512;
                 truncation := true;
                 padding := true;
                 return_tensors := "pt" |} :: rest).
Proof.
  intros n. split.
  - intros tok. rewrite !generate_question_and_history_zip_with. split.
    + apply length_zip_with.
    + symmetry. apply zip_with_take_both'; lia.
  - intros passage gp ri self.
    run_method; eauto.
Qed.

End Linearization.

(** ** The methods *)

Section Methods.
Context `{B : Backend}.

(** *** Construction *)

(** The constructor succeeds as soon as its five external steps do. *)
Lemma init_succeeds (name : string) (tok : option Tokenizer) (dev : string)
    (ex ex' : Extractor) (ed : EncoderDecoder Net) (net : Net) (t : Tokenizer) :
  TokenImportancesExtractor name = Ok ex ->
  extractor_to ex dev = Ok ex' ->
  build_encoder_decoder name = Ok ed ->
  encoder_decoder_to (network ed) dev = Ok net ->
  match tok with
  | None => AutoTokenizer_from_pretrained name = Ok t
  | Some supplied => supplied = t
  end ->
  exists m, init name tok dev = Ok m /\ tokenizer m = t.
Proof.
  intros H1 H2 H3 H4 H5. unfold init, mbind, result_bind.
  rewrite H1, H2, H3, H4.
  destruct tok as [supplied|]; [subst supplied | rewrite H5]; eauto.
Qed.

(** C5.  A model the constructor returns has the decoder start-token id of
    its encoder-decoder equal to the cls token id of its tokenizer and the
    padding id equal to the tokenizer's padding id; its tokenizer is the one
    supplied, or the pretrained default when none was. *)
Theorem init_synchronizes_special_tokens (name : string)
    (tok : option Tokenizer) (dev : string) (m : Model) :
  init name tok dev = Ok m ->
  decoder_start_token_id (config (encoder_decoder m))
    = cls_token_id (tokenizer m)
  /\ pad_token_id (config (encoder_decoder m))
     = tokenizer_pad_token_id (tokenizer m)
  /\ match tok with
     | Some supplied => tokenizer m = supplied
     | None => AutoTokenizer_from_pretrained name = Ok (tokenizer m)
     end.
Proof.
  unfold init, mbind, result_bind.
  destruct (TokenImportancesExtractor name) as [ex|]; [|done].
  destruct (extractor_to ex dev) as [ex'|]; [|done].
  destruct (build_encoder_decoder name) as [ed|]; [|done].
  destruct (encoder_decoder_to (network ed) dev) as [net|]; [|done].
  destruct tok as [supplied|].
  - by intros [= <-].
  - destruct (AutoTokenizer_from_pretrained name) as [t|] eqn:E; [|done].
    by intros [= <-].
Qed.

(** *** Generation *)

(** Whatever happens during a [generate] call, it leaves the instance with
    the options of this call stored and nothing else changed. *)
Lemma generate_final (passage question : list string)
    (history : option (list string)) (gp : option pydict)
    (return_importances : bool) (self : Model) :
  final (generate passage question history gp return_importances self)
  = with_generation_params (Some (effective_generation_params gp)) self.
Proof. run_method; reflexivity. Qed.

(** A [generate] call tokenizes at most once and generates at most once. *)
Lemma generate_calls_once (passage question : list string)
    (history : option (list string)) (gp : option pydict)
    (return_importances : bool) (self : Model) :
  let made := calls (generate passage question history gp
                       return_importances self) in
  length (List.filter is_tokenizer_call made) = 1
  /\ length (List.filter is_generate_call made) <= 1.
Proof. run_method; split; cbn; lia. Qed.

(** The call of the encoder-decoder a [generate] call makes, if any: its
    inputs are those of the one tokenization, its scores the extractor's
    output on them, its keywords the options of the call. *)
Lemma generate_call_inv (passage question : list string)
    (history : option (list string)) (gp : option pydict)
    (return_importances : bool) (self : Model)
    (ed : EncoderDecoder Net) (ids scores : Tensor) (kwargs : pydict) :
  CallGenerate ed ids scores kwargs
    ∈ calls (generate passage question history gp return_importances self) ->
  exists args encoded inputs rest,
    calls (generate passage question history gp return_importances self)
    = [CallTokenizer (tokenizer self) args;
       CallEncodingTo encoded (device self);
       CallExtractorForward (token_importances_extractor self)
         (input_ids inputs) (attention_mask inputs);
       CallGenerate ed ids scores kwargs] ++ rest
    /\ Forall (fun c => is_tokenizer_call c = false) rest
    /\ tokenizer_call (tokenizer self) args = Ok encoded
    /\ encoding_to encoded (device self) = Ok inputs
    /\ extractor_forward (token_importances_extractor self)
         (input_ids inputs) (attention_mask inputs) = Ok scores
    /\ ids = input_ids inputs
    /\ ed = encoder_decoder self
    /\ kwargs = effective_generation_params gp.
Proof.
  run_method; intros H; among_calls H;
    injection H as -> -> -> ->;
    repeat eexists; eauto; repeat constructor.
Qed.

(** A [generate] call that returns has called the encoder-decoder, and the
    importances it returns on request are the scores it passed along. *)
Lemma generate_Ok_inv (passage question : list string)
    (history : option (list string)) (gp : option pydict)
    (return_importances : bool) (self : Model) (r : generated) :
  value (generate passage question history gp return_importances self) = Ok r ->
  exists ids scores,
    CallGenerate (encoder_decoder self) ids scores
      (effective_generation_params gp)
      ∈ calls (generate passage question history gp return_importances self)
    /\ (return_importances = true -> importances_of (Ok r) = Some scores).
Proof.
  run_method; intros [= <-];
    (eexists _, _; split;
     [do 3 apply list_elem_of_further; apply list_elem_of_here
     | by intros ->]).
Qed.

(** C2, as the code has it.  Without a dictionary the options are the
    defaults [do_sample=False], [num_beams=3], [repetition_penalty=2.0]; a
    supplied dictionary is used exactly as given, nothing is filled in.  The
    resulting dictionary is what [generate] stores and what it passes as
    keywords to the encoder-decoder. *)
Theorem generation_params_default_or_as_supplied (passage question : list string)
    (history : option (list string)) (gp : option pydict)
    (return_importances : bool) (self : Model) :
  effective_generation_params None = default_generation_params
  /\ default_generation_params !! "do_sample" = Some (PyBool false)
  /\ default_generation_params !! "num_beams" = Some (PyInt 3)
  /\ default_generation_params !! "repetition_penalty" = Some (PyFloat 2)
  /\ (forall supplied, effective_generation_params (Some supplied) = supplied)
  /\ generation_params
       (final (generate passage question history gp return_importances self))
     = Some (effective_generation_params gp)
  /\ (forall ed ids scores kwargs,
        CallGenerate ed ids scores kwargs
          ∈ calls (generate passage question history gp return_importances self) ->
        kwargs = effective_generation_params gp).
Proof.
  split_and!.
  - reflexivity.
  - vm_compute. reflexivity.
  - vm_compute. reflexivity.
  - vm_compute. reflexivity.
  - reflexivity.
  - rewrite generate_final. reflexivity.
  - intros ed ids scores kwargs H.
    apply generate_call_inv in H as (?&?&?&?&?&?&?&?&?&?&?&Hk). exact Hk.
Qed.

(** C6.  The call of the encoder-decoder inside [generate] receives the input
    ids of the one tokenization of this [generate] call, and as importances
    the output of the extractor on these very ids and their attention
    mask. *)
Theorem generate_scores_from_same_tokenization (passage question : list string)
    (history : option (list string)) (gp : option pydict)
    (return_importances : bool) (self : Model)
    (ed : EncoderDecoder Net) (ids scores : Tensor) (kwargs : pydict) :
  CallGenerate ed ids scores kwargs
    ∈ calls (generate passage question history gp return_importances self) ->
  length (List.filter is_tokenizer_call
            (calls (generate passage question history gp
                      return_importances self))) = 1
  /\ exists args encoded inputs,
       CallTokenizer (tokenizer self) args
         ∈ calls (generate passage question history gp return_importances self)
       /\ tokenizer_call (tokenizer self) args = Ok encoded
       /\ encoding_to encoded (device self) = Ok inputs
       /\ ids = input_ids inputs
       /\ extractor_forward (token_importances_extractor self)
            (input_ids inputs) (attention_mask inputs) = Ok scores.
Proof.
  intros H. split; [apply generate_calls_once |].
  apply generate_call_inv in H
    as (args & encoded & inputs & rest & -> & _ & Ht & He & Hf & -> & _ & _).
  exists args, encoded, inputs. split_and!; try done.
  apply list_elem_of_here.
Qed.

(** C8.  A [generate] call leaves every attribute as it was, except
    [generation_params], which holds the options of the call; and no method
    reads that attribute: started with any other value stored in it,
    [generate], [compute_token_importances] and [load_weigths] make the same
    calls and end the same way. *)
Theorem generate_only_stores_generation_params (passage question : list string)
    (history : option (list string)) (gp : option pydict)
    (return_importances : bool) (self : Model) :
  final (generate passage question history gp return_importances self)
    = with_generation_params (Some (effective_generation_params gp)) self
  /\ (forall stored,
        generate passage question history gp return_importances
          (with_generation_params stored self)
        = generate passage question history gp return_importances self)
  /\ (forall stored p q h,
        let o := compute_token_importances p q h self in
        compute_token_importances p q h (with_generation_params stored self)
        = {| final := with_generation_params stored (final o);
             calls := calls o;
             value := value o |})
  /\ (forall stored p1 p2,
        let o := load_weigths p1 p2 self in
        load_weigths p1 p2 (with_generation_params stored self)
        = {| final := with_generation_params stored (final o);
             calls := calls o;
             value := value o |}).
Proof.
  split_and!.
  - apply generate_final.
  - intros stored. run_method; reflexivity.
  - intros stored p q h. run_method; reflexivity.
  - intros stored p1 p2. run_method; reflexivity.
Qed.

(** C10.  When a [generate] call raises, at whatever step, the attribute
    [generation_params] already holds the options of that call. *)
Theorem generate_stores_params_before_failing (passage question : list string)
    (history : option (list string)) (gp : option pydict)
    (return_importances : bool) (self : Model) :
  is_raise (value (generate passage question history gp
                     return_importances self)) ->
  generation_params
    (final (generate passage question history gp return_importances self))
  = Some (effective_generation_params gp).
Proof. intros _. by rewrite generate_final. Qed.

(** *** Importances of one sample *)

Lemma question_and_history_batch_of_one (tok : Tokenizer) (question : string)
    (history : option string) :
  generate_question_and_history tok [question] ((fun h => [h]) <$> history)
  = [compute_question_and_history tok question history].
Proof. destruct history; reflexivity. Qed.

(** C4.  On one sample [compute_token_importances] linearizes exactly as
    [generate] does on the batch holding that sample, calls the tokenizer
    with the same options ([max_length=512], truncation, padding) on the same
    texts, and returns the extractor's output without ever calling the
    encoder-decoder.  Provided the tokenizer treats a single pair as the
    batch of that pair, its calls are the first calls of [generate] on that
    batch, and its result is the importances [generate] computes there. *)
Theorem compute_token_importances_as_batch_of_one (passage question : string)
    (history : option string) (gp : option pydict) (self : Model) :
  let args :=
    {| text := Str (compute_question_and_history (tokenizer self)
                      question history);
       text_pair := Str passage;
       max_length := 512;
       truncation := true;
       padding := true;
       return_tensors := "pt" |} in
  let single := compute_token_importances passage question history self in
  let batch :=
    generate [passage] [question] ((fun h => [h]) <$> history) gp true self in
  tokenizer_call (tokenizer self) (as_batch args)
    = tokenizer_call (tokenizer self) args ->
  generate_question_and_history (tokenizer self) [question]
      ((fun h => [h]) <$> history)
    = [compute_question_and_history (tokenizer self) question history]
  /\ (exists rest, calls single = CallTokenizer (tokenizer self) args :: rest)
  /\ (exists rest,
        calls batch = CallTokenizer (tokenizer self) (as_batch args) :: rest)
  /\ (as_batch_call <$> calls single) `prefix_of` calls batch
  /\ Forall (fun c => is_generate_call c = false) (calls single)
  /\ final single = self
  /\ match value single with
     | Ok scores =>
         (exists inputs,
            CallExtractorForward (token_importances_extractor self)
              (input_ids inputs) (attention_mask inputs) ∈ calls single
            /\ extractor_forward (token_importances_extractor self)
                 (input_ids inputs) (attention_mask inputs) = Ok scores)
         /\ (forall r, value batch = Ok r ->
                       importances_of (Ok r) = Some scores)
     | Raise e => value batch = Raise e
     end.
Proof.
  intros args single batch H.
  pose proof (question_and_history_batch_of_one (tokenizer self) question
                history) as E.
  split; [exact E |].
  subst single batch. unfold as_batch in *. subst args. cbn [text text_pair
    max_length truncation padding return_tensors as_batch_input] in *.
  unfold generate, compute_token_importances.
  method_simpl. repeat method_step. rewrite E, H.
  repeat (first [method_step | next_call]);
    (refine (conj _ (conj _ (conj _ (conj _ (conj _ _)))));
     [ eauto
     | eauto
     | eexists; cbn; reflexivity
     | repeat constructor
     | reflexivity
     | try reflexivity;
       try (split;
            [ eexists; split;
              [ repeat first [apply list_elem_of_here
                             | apply list_elem_of_further]
              | eassumption ]
            | intros r Hr; try discriminate Hr;
              injection Hr as <-; reflexivity ]) ]).
Qed.

(** *** Loading weights *)

(** C7, as the code has it.  [load_weigths] raises the error of the first
    step that fails and attempts nothing after it, so a failure always
    surfaces; but nothing is rolled back.  When reading the extractor's
    snapshot fails, the instance is untouched.  From then on the extractor
    is whatever its [load_state_dict] left.  When reading the
    encoder-decoder's snapshot then fails, the call raises with the
    extractor already loaded and the encoder-decoder as it was.  When that
    snapshot is read, the encoder-decoder's network is whatever its
    [load_state_dict] left, also when this last step raises. *)
Theorem load_weigths_raises_without_rollback (p1 p2 : string) (self : Model) :
  let o := load_weigths p1 p2 self in
  let ex0 := token_importances_extractor self in
  let net0 := network (encoder_decoder self) in
  (forall e,
     torch_load p1 = Raise e ->
     o = {| final := self; calls := [CallTorchLoad p1]; value := Raise e |})
  /\ (forall s1 ex e,
        torch_load p1 = Ok s1 ->
        extractor_load_state_dict ex0 s1 = (ex, Raise e) ->
        o = {| final := with_extractor ex self;
               calls := [CallTorchLoad p1; CallExtractorLoadStateDict ex0 s1];
               value := Raise e |})
  /\ (forall s1 ex e,
        torch_load p1 = Ok s1 ->
        extractor_load_state_dict ex0 s1 = (ex, Ok tt) ->
        torch_load p2 = Raise e ->
        o = {| final := with_extractor ex self;
               calls := [CallTorchLoad p1; CallExtractorLoadStateDict ex0 s1;
                         CallTorchLoad p2];
               value := Raise e |})
  /\ (forall s1 ex s2 net r,
        torch_load p1 = Ok s1 ->
        extractor_load_state_dict ex0 s1 = (ex, Ok tt) ->
        torch_load p2 = Ok s2 ->
        encoder_decoder_load_state_dict net0 s2 = (net, r) ->
        o = {| final := with_network net (with_extractor ex self);
               calls := [CallTorchLoad p1; CallExtractorLoadStateDict ex0 s1;
                         CallTorchLoad p2;
                         CallEncoderDecoderLoadStateDict net0 s2];
               value := r |}).
Proof.
  intros o ex0 net0. subst o ex0 net0. unfold load_weigths. method_simpl.
  split_and!.
  - intros e H1. rewrite bind_call, H1. reflexivity.
  - intros s1 ex e H1 H2. rewrite bind_call, H1. method_simpl.
    repeat method_step. rewrite H2. method_simpl.
    repeat method_step. reflexivity.
  - intros s1 ex e H1 H2 H3. rewrite bind_call, H1. method_simpl.
    repeat method_step. rewrite H2. method_simpl.
    repeat method_step. rewrite H3. reflexivity.
  - intros s1 ex s2 net r H1 H2 H3 H4. rewrite bind_call, H1. method_simpl.
    repeat method_step. rewrite H2. method_simpl.
    repeat method_step. rewrite H3. method_simpl.
    repeat method_step. rewrite H4. method_simpl.
    repeat method_step. reflexivity.
Qed.

End Methods.

(** ** Runs on the concrete backend *)

Section Runs.
Import Toy.

(** The call on the empty history, run: the question comes out with a
    separator after it. *)
Example empty_history_run :
  generate_question_and_history bert_tokenizer [question] (Some [EmptyString])
  = ["What is the capital of France? [SEP] "].
Proof. reflexivity. Qed.

(** C2, refuted as stated: called with [{'num_beams': 5}] alone, [generate]
    passes exactly that dictionary to the encoder-decoder and stores it; the
    key [repetition_penalty], which the design would default to [2.0], is
    absent from it. *)
Lemma generation_params_not_merged_with_defaults :
  let supplied : pydict := {[ "num_beams" := PyInt 5 ]} in
  let run := generate [passage] [question] None (Some supplied) false model in
  CallGenerate (encoder_decoder model) [[30; 31]]%Z [[31; 32]]%Z supplied
    ∈ calls run
  /\ generation_params (final run) = Some supplied
  /\ supplied !! "repetition_penalty" = None
  /\ spec_generation_params (Some supplied) !! "repetition_penalty"
     = Some (PyFloat 2)
  /\ supplied <> spec_generation_params (Some supplied).
Proof.
  intros supplied run. split_and!.
  - vm_compute. do 3 apply list_elem_of_further. apply list_elem_of_here.
  - vm_compute. reflexivity.
  - vm_compute. reflexivity.
  - vm_compute. reflexivity.
  - intros H. apply (f_equal (fun m : pydict => m !! "repetition_penalty")) in H.
    vm_compute in H. discriminate H.
Qed.

Lemma generation_params_default_or_as_supplied_witness :
  let run := generate [passage] [question] None None false model in
  generation_params (final run) = Some default_generation_params
  /\ (forall ed ids scores kwargs,
        CallGenerate ed ids scores kwargs ∈ calls run ->
        kwargs = default_generation_params).
Proof.
  intros run.
  pose proof (generation_params_default_or_as_supplied
                [passage] [question] None None false model)
    as (_ & _ & _ & _ & _ & Hstored & Hpassed).
  split; [exact Hstored | exact Hpassed].
Defined.

Lemma linearization_one_separator_per_turn_witness :
  let turns := ["Where is Paris?"; "In France."] in
  turns <> []
  /\ Forall turn_without_marker turns
  /\ sep_token bert_tokenizer = Some "[SEP]"
  /\ "["%char <> " "%char
  /\ without_char "[" "What is the capital of France?"
  /\ Forall (without_char "[") turns
  /\ generate_question_and_history bert_tokenizer
       ["What is the capital of France?"]
       (Some ["Where is Paris? <sep> In France."])
     = ["What is the capital of France? [SEP] Where is Paris? [SEP] In France."]
  /\ PyStr.split
       "What is the capital of France? [SEP] Where is Paris? [SEP] In France."
       " [SEP] "
     = ["What is the capital of France?"; "Where is Paris?"; "In France."].
Proof.
  intros turns.
  assert (Hne : turns <> []) by discriminate.
  assert (Hfree : Forall turn_without_marker turns) by (repeat constructor).
  assert (Htoken : sep_token bert_tokenizer = Some "[SEP]") by reflexivity.
  assert (Hc : "["%char <> " "%char) by discriminate.
  assert (Hq : without_char "[" "What is the capital of France?")
    by reflexivity.
  assert (Hturns : Forall (without_char "[") turns) by (repeat constructor).
  split; [exact Hne |]. split; [exact Hfree |]. split; [exact Htoken |].
  split; [exact Hc |]. split; [exact Hq |]. split; [exact Hturns |].
  pose proof (linearization_one_separator_per_turn bert_tokenizer
                "What is the capital of France?")
    as (_ & Hturns_in & _ & Hcut).
  split.
  - exact (Hturns_in turns Hne Hfree).
  - exact (proj1 (Hcut "["%char "SEP]" turns Htoken Hc Hq Hturns)).
Defined.

Lemma compute_token_importances_as_batch_of_one_witness :
  let args :=
    {| text := Str "What is the capital of France? [SEP] Where is Paris? [SEP] In France.";
       text_pair := Str passage;
       max_length := 512;
       truncation := true;
       padding := true;
       return_tensors := "pt" |} in
  tokenize bert_tokenizer (as_batch args) = tokenize bert_tokenizer args
  /\ value (compute_token_importances passage question (Some history) model)
     = Ok [[70; 32]]%Z
  /\ importances_of
       (value (generate [passage] [question] (Some [history]) None true model))
     = Some [[70; 32]]%Z.
Proof.
  intros args.
  assert (H : tokenize bert_tokenizer (as_batch args)
              = tokenize bert_tokenizer args) by reflexivity.
  split; [exact H |].
  pose proof (compute_token_importances_as_batch_of_one
                passage question (Some history) None model H)
    as (_ & _ & _ & _ & _ & _ & Hvalue).
  split; [reflexivity |].
  vm_compute in Hvalue. destruct Hvalue as [_ Hbatch].
  exact (Hbatch (TextAndImportances ["answer"] [[70; 32]]%Z) eq_refl).
Defined.

Lemma init_synchronizes_special_tokens_witness :
  init "prajjwal1/bert-tiny" None "cpu" = Ok model
  /\ decoder_start_token_id (config (encoder_decoder model))
     = cls_token_id (tokenizer model)
  /\ pad_token_id (config (encoder_decoder model))
     = tokenizer_pad_token_id (tokenizer model).
Proof.
  assert (H : init "prajjwal1/bert-tiny" None "cpu" = Ok model) by reflexivity.
  split; [exact H |].
  pose proof (init_synchronizes_special_tokens _ _ _ _ H) as (Hcls & Hpad & _).
  split; [exact Hcls | exact Hpad].
Defined.

Lemma generate_scores_from_same_tokenization_witness :
  let run := generate [passage] [question] (Some [history]) None true model in
  CallGenerate (encoder_decoder model) [[69; 31]]%Z [[70; 32]]%Z
    default_generation_params ∈ calls run
  /\ length (List.filter is_tokenizer_call (calls run)) = 1
  /\ exists args encoded inputs,
       CallTokenizer (tokenizer model) args ∈ calls run
       /\ tokenizer_call (tokenizer model) args = Ok encoded
       /\ encoding_to encoded (device model) = Ok inputs
       /\ [[69; 31]]%Z = input_ids inputs
       /\ extractor_forward (token_importances_extractor model)
            (input_ids inputs) (attention_mask inputs) = Ok [[70; 32]]%Z.
Proof.
  intros run.
  assert (H : CallGenerate (encoder_decoder model) [[69; 31]]%Z [[70; 32]]%Z
                default_generation_params ∈ calls run).
  { vm_compute. do 3 apply list_elem_of_further. apply list_elem_of_here. }
  split; [exact H |].
  exact (generate_scores_from_same_tokenization
           [passage] [question] (Some [history]) None true model
           (encoder_decoder model) [[69; 31]]%Z [[70; 32]]%Z
           default_generation_params H).
Defined.

(** C7, refuted as stated: the encoder-decoder's snapshot is missing, the
    call raises, and the extractor has been loaded all the same. *)
Lemma load_weigths_partial_load :
  let o := load_weigths "extractor.pt" "missing.pt" model in
  value o = Raise (Exception "FileNotFoundError")
  /\ token_importances_extractor model = 0%Z
  /\ token_importances_extractor (final o) = 12%Z
  /\ token_importances_extractor (final o) <> token_importances_extractor model.
Proof.
  intros o. split_and!; [reflexivity | reflexivity | reflexivity |].
  vm_compute. discriminate.
Qed.

Lemma load_weigths_raises_without_rollback_witness :
  let o := load_weigths "extractor.pt" "missing.pt" model in
  torch_load "extractor.pt" = Ok 12%Z
  /\ extractor_load_state_dict (token_importances_extractor model) 12%Z
     = (12%Z, Ok tt)
  /\ torch_load "missing.pt" = Raise (Exception "FileNotFoundError")
  /\ o = {| final := with_extractor 12%Z model;
            calls := [CallTorchLoad "extractor.pt";
                      CallExtractorLoadStateDict 0%Z 12%Z;
                      CallTorchLoad "missing.pt"];
            value := Raise (Exception "FileNotFoundError") |}.
Proof.
  intros o.
  assert (H1 : torch_load "extractor.pt" = Ok 12%Z) by reflexivity.
  assert (H2 : extractor_load_state_dict (token_importances_extractor model)
                 12%Z = (12%Z, Ok tt)) by reflexivity.
  assert (H3 : torch_load "missing.pt"
               = Raise (Exception "FileNotFoundError")) by reflexivity.
  split; [exact H1 |]. split; [exact H2 |]. split; [exact H3 |].
  pose proof (load_weigths_raises_without_rollback
                "extractor.pt" "missing.pt" model) as (_ & _ & Hthird & _).
  exact (Hthird _ _ _ H1 H2 H3).
Defined.

Lemma generate_stores_params_before_failing_witness :
  let supplied : pydict := {[ "num_beams" := PyInt 5 ]} in
  let run :=
    generate [passage; passage] [question] None (Some supplied) false model in
  is_raise (value run)
  /\ generation_params model = None
  /\ generation_params (final run) = Some supplied.
Proof.
  intros supplied run.
  assert (H : is_raise (value run)) by exact I.
  split; [exact H |]. split; [reflexivity |].
  exact (generate_stores_params_before_failing
           [passage; passage] [question] None (Some supplied) false model H).
Defined.

End Runs.

(** ** Linearization on whole batches *)

Section BatchLinearization.
Context `{B : Backend}.
Import PyStr.
#[local] Arguments String.append !_ _ / : simpl nomatch.

(** The batch expression of [generate] and the single-sample expression of
    [compute_token_importances] are the same function, entry by entry. *)
Theorem generate_linearizes_entry_by_entry (tok : Tokenizer)
    (question history : list string) :
  generate_question_and_history tok question (Some history)
    = zip_with (fun q h => compute_question_and_history tok q (Some h))
        question history
  /\ generate_question_and_history tok question None
     = (fun q => compute_question_and_history tok q None) <$> question
  /\ (forall i q h,
        question !! i = Some q -> history !! i = Some h ->
        generate_question_and_history tok question (Some history) !! i
        = Some (compute_question_and_history tok q (Some h))).
Proof.
  assert (E : generate_question_and_history tok question (Some history)
              = zip_with (fun q h => compute_question_and_history tok q (Some h))
                  question history).
  { rewrite generate_question_and_history_zip_with.
    apply zip_with_ext; [|done..].
    intros q h. by rewrite compute_question_and_history_Some. }
  split_and!.
  - exact E.
  - cbn. by rewrite list_fmap_id.
  - intros i q h Hq Hh. rewrite E, lookup_zip_with, Hq. cbn. by rewrite Hh.
Qed.

Lemma join_snoc_empty (sep : string) (turns : list string) :
  turns <> [] ->
  join sep (turns ++ [EmptyString]) = join sep turns +:+ sep.
Proof.
  induction turns as [|a [|b l] IH]; intros Hne; [done | |].
  - cbn. by rewrite append_empty_r.
  - change ((a :: b :: l) ++ [EmptyString])
      with (a :: b :: (l ++ [EmptyString])).
    rewrite !join_cons_cons.
    change (b :: l ++ [EmptyString]) with ((b :: l) ++ [EmptyString]).
    rewrite IH by done. by rewrite !append_assoc.
Qed.

Lemma join_cons_nonempty (sep a : string) (turns : list string) :
  turns <> [] -> join sep (a :: turns) = a +:+ sep +:+ join sep turns.
Proof. destruct turns; [done | reflexivity]. Qed.

(** A wire separator at the end of the history, or at its start, counts as
    the border of one more, empty, turn: the linearized query then ends with
    a separator, or has two separators in a row after the question. *)
Theorem linearization_keeps_border_separators (tok : Tokenizer) (q : string)
    (turns : list string) :
  turns <> [] -> Forall turn_without_marker turns ->
  compute_question_and_history tok q
      (Some (join history_separator turns +:+ history_separator))
    = spec_linearize (separator tok) q turns +:+ separator tok
  /\ compute_question_and_history tok q
       (Some (history_separator +:+ join history_separator turns))
     = spec_linearize (separator tok) (q +:+ separator tok) turns.
Proof.
  intros Hne Hfree. rewrite !compute_question_and_history_Some. split.
  - rewrite <- join_snoc_empty by done.
    rewrite split_join_turns.
    + unfold spec_linearize. rewrite foldl_app. cbn.
      by rewrite !append_assoc, append_empty_r.
    + by destruct turns.
    + apply Forall_app. split; [done | by repeat constructor].
  - change (history_separator +:+ join history_separator turns)
      with (EmptyString +:+ history_separator +:+ join history_separator turns).
    rewrite <- join_cons_nonempty by done.
    rewrite split_join_turns; [|done | by constructor].
    unfold spec_linearize. cbn. by rewrite append_empty_r.
Qed.

End BatchLinearization.

(** ** More on the methods *)

(** Brings the outcomes assumed of external calls and those found by case
    analysis together. *)
Ltac agree_calls :=
  repeat first
    [ progress simplify_eq
    | match goal with
      | H1 : ?t = _, H2 : ?t = _ |- _ => rewrite H1 in H2
      end ].


(** The outcome of a recorded call, read off the case analysis that
    reached it. *)
Ltac returned :=
  cbn [call_error error_of];
  repeat match goal with
         | H : ?t = _ |- context [?t] => rewrite H
         end;
  cbn [call_error error_of snd]; reflexivity.

(** Splits an explicit list of calls into the calls before the last one and
    the last one. *)
Ltac split_last l :=
  lazymatch l with
  | [?c] => constr:((@nil Call, c))
  | ?x :: ?l' =>
      let r := split_last l' in
      lazymatch r with
      | (?earlier, ?c) => constr:((x :: earlier, c))
      end
  end.

Ltac end_of_calls :=
  lazymatch goal with
  | |- exists earlier c, ?l = _ /\ _ =>
      let r := split_last l in
      lazymatch r with
      | (?earlier, ?c) => exists earlier, c
      end
  end.

Section MoreMethods.
Context `{B : Backend}.

(** [return_importances] changes nothing but the shape of what [generate]
    returns: same calls, same final instance, same answers. *)
Theorem return_importances_only_shapes_result (passage question : list string)
    (history : option (list string)) (gp : option pydict) (self : Model) :
  let with_scores := generate passage question history gp true self in
  let without := generate passage question history gp false self in
  final with_scores = final without
  /\ calls with_scores = calls without
  /\ match value with_scores with
     | Ok r =>
         exists text scores,
           r = TextAndImportances text scores /\ value without = Ok (Text text)
     | Raise e => value without = Raise e
     end.
Proof.
  run_method; split_and!; eauto.
Qed.

(** [generate] returns exactly when tokenization, the move to the device,
    the extractor, the encoder-decoder and the decoding all return and the
    options do not name [token_importances]; the answers are the decoding,
    special tokens skipped, of what the encoder-decoder generated from the
    input ids, the extractor's scores on them and the options. *)
Theorem generate_returns_iff (passage question : list string)
    (history : option (list string)) (gp : option pydict)
    (return_importances : bool) (self : Model) (r : generated) :
  let args := generate_tokenizer_args self passage question history in
  let kwargs := effective_generation_params gp in
  value (generate passage question history gp return_importances self) = Ok r
  <-> exists encoded inputs scores ids answers,
        tokenizer_call (tokenizer self) args = Ok encoded
        /\ encoding_to encoded (device self) = Ok inputs
        /\ extractor_forward (token_importances_extractor self)
             (input_ids inputs) (attention_mask inputs) = Ok scores
        /\ kwargs !! "token_importances" = None
        /\ encoder_decoder_generate (encoder_decoder self) (input_ids inputs)
             scores kwargs = Ok ids
        /\ batch_decode (tokenizer self) ids true = Ok answers
        /\ r = (if return_importances
                then TextAndImportances answers scores
                else Text answers)
        /\ calls (generate passage question history gp return_importances self)
           = [CallTokenizer (tokenizer self) args;
              CallEncodingTo encoded (device self);
              CallExtractorForward (token_importances_extractor self)
                (input_ids inputs) (attention_mask inputs);
              CallGenerate (encoder_decoder self) (input_ids inputs) scores
                kwargs;
              CallBatchDecode (tokenizer self) ids true].
Proof.
  intros args kwargs. subst args kwargs. unfold generate_tokenizer_args.
  split.
  - run_method; intros [= <-]. do 5 eexists. split_and!; eauto.
  - intros (encoded & inputs & scores & ids & answers
            & H1 & H2 & H3 & H4 & H5 & H6 & -> & _).
    run_method; agree_calls; try done.
Qed.


(** [generate] stops at the first step that fails: when it raises, either
    the last call it made raised that very exception and every call before
    it had returned, or the three calls up to the extractor all returned and
    the exception is the [TypeError] for options that name
    [token_importances]. *)
Theorem generate_stops_at_first_error (passage question : list string)
    (history : option (list string)) (gp : option pydict)
    (return_importances : bool) (self : Model) (e : exn) :
  value (generate passage question history gp return_importances self)
    = Raise e ->
  (exists earlier c,
     calls (generate passage question history gp return_importances self)
       = earlier ++ [c]
     /\ Forall (fun c' => call_error c' = None) earlier
     /\ call_error c = Some e)
  \/ (is_Some (effective_generation_params gp !! "token_importances")
      /\ Forall (fun c' => call_error c' = None)
           (calls (generate passage question history gp
                     return_importances self))
      /\ Forall (fun c' => is_generate_call c' = false)
           (calls (generate passage question history gp
                     return_importances self))
      /\ e = Exception "TypeError: got multiple values for keyword argument 'token_importances'").
Proof.
  run_method; intros [= <-];
    first
      [ right; split_and!; [eauto | repeat constructor; returned.. | done]
      | left; end_of_calls;
        split_and!; [reflexivity | repeat constructor; returned | returned] ].
Qed.

(** Options that name [token_importances] make every [generate] call raise,
    and the encoder-decoder is never called with them; they are stored all
    the same. *)
Theorem generate_rejects_token_importances_option
    (passage question : list string) (history : option (list string))
    (supplied : pydict) (v : pyvalue) (return_importances : bool)
    (self : Model) :
  supplied !! "token_importances" = Some v ->
  let o := generate passage question history (Some supplied)
             return_importances self in
  is_raise (value o)
  /\ Forall (fun c => is_generate_call c = false) (calls o)
  /\ generation_params (final o) = Some supplied.
Proof.
  intros H o. subst o.
  unfold generate, effective_generation_params. method_simpl.
  repeat (first [method_step | next_call]);
    try discriminate H; split_and!; try done; repeat constructor.
Qed.

(** [compute_token_importances] leaves the instance exactly as it found it,
    however it ends; it starts with the tokenizer call on the single pair
    and makes at most three calls, none of them to the encoder-decoder or to
    the decoding. *)
Theorem compute_token_importances_frame (passage question : string)
    (history : option string) (self : Model) :
  let o := compute_token_importances passage question history self in
  final o = self
  /\ (exists rest,
        calls o = CallTokenizer (tokenizer self)
                    (compute_tokenizer_args self passage question history)
                  :: rest)
  /\ Forall (fun c => is_extraction_call c = true) (calls o)
  /\ length (calls o) <= 3.
Proof.
  unfold compute_tokenizer_args.
  run_method; split_and!; eauto; try (repeat constructor); cbn; lia.
Qed.

(** [compute_token_importances] returns the extractor's output on the
    tokenized pair moved to the device, after exactly these three calls; when
    it raises, the last call it made raised that exception and the calls
    before it had returned. *)
Theorem compute_token_importances_outcome (passage question : string)
    (history : option string) (self : Model) :
  let o := compute_token_importances passage question history self in
  let args := compute_tokenizer_args self passage question history in
  match value o with
  | Ok scores =>
      exists encoded inputs,
        tokenizer_call (tokenizer self) args = Ok encoded
        /\ encoding_to encoded (device self) = Ok inputs
        /\ extractor_forward (token_importances_extractor self)
             (input_ids inputs) (attention_mask inputs) = Ok scores
        /\ calls o = [CallTokenizer (tokenizer self) args;
                      CallEncodingTo encoded (device self);
                      CallExtractorForward (token_importances_extractor self)
                        (input_ids inputs) (attention_mask inputs)]
  | Raise e =>
      exists earlier c,
        calls o = earlier ++ [c]
        /\ Forall (fun c' => call_error c' = None) earlier
        /\ call_error c = Some e
  end.
Proof.
  unfold compute_tokenizer_args.
  run_method;
    first
      [ do 2 eexists; split_and!; eauto; done
      | end_of_calls;
        split_and!; [reflexivity | repeat constructor; returned | returned] ].
Qed.

End MoreMethods.

(** ** Sequences of method calls *)

Section Lifecycle.
Context `{B : Backend}.

(** The constructor returns exactly when its steps do, in this order: the
    extractor is built and moved, the encoder-decoder is built and moved,
    the pretrained tokenizer is loaded unless one is supplied.  The model
    holds the name and device as given and no stored generation options;
    the two special-token ids of the configuration come from the tokenizer,
    whatever [build_encoder_decoder] had put there. *)
Theorem init_returns_iff (name : string) (tok : option Tokenizer)
    (dev : string) (m : Model) :
  init name tok dev = Ok m
  <-> exists ex ex' ed net t,
        TokenImportancesExtractor name = Ok ex
        /\ extractor_to ex dev = Ok ex'
        /\ build_encoder_decoder name = Ok ed
        /\ encoder_decoder_to (network ed) dev = Ok net
        /\ match tok with
           | Some supplied => t = supplied
           | None => AutoTokenizer_from_pretrained name = Ok t
           end
        /\ m = {| model_name := name;
                  device := dev;
                  token_importances_extractor := ex';
                  encoder_decoder :=
                    {| network := net;
                       config :=
                         {| decoder_start_token_id := cls_token_id t;
                            pad_token_id := tokenizer_pad_token_id t |} |};
                  tokenizer := t;
                  generation_params := None |}.
Proof.
  unfold init, mbind, result_bind. split.
  - destruct (TokenImportancesExtractor name) as [ex|] eqn:E1; [|done].
    destruct (extractor_to ex dev) as [ex'|] eqn:E2; [|done].
    destruct (build_encoder_decoder name) as [ed|] eqn:E3; [|done].
    destruct (encoder_decoder_to (network ed) dev) as [net|] eqn:E4; [|done].
    destruct tok as [supplied|].
    + intros [= <-]. exists ex, ex', ed, net, supplied. split_and!; done.
    + destruct (AutoTokenizer_from_pretrained name) as [t|] eqn:E; [|done].
      intros [= <-]. exists ex, ex', ed, net, t. split_and!; done.
  - intros (ex & ex' & ed & net & t & -> & -> & -> & -> & Ht & ->).
    destruct tok as [supplied|]; [by subst t | by rewrite Ht].
Qed.

Lemma compute_token_importances_final (passage question : string)
    (history : option string) (self : Model) :
  final (compute_token_importances passage question history self) = self.
Proof. run_method; reflexivity. Qed.

Lemma load_weigths_final (path1 path2 : string) (self : Model) :
  exists ex net,
    final (load_weigths path1 path2 self) = with_network net (with_extractor ex self).
Proof.
  exists (token_importances_extractor (final (load_weigths path1 path2 self))),
         (network (encoder_decoder (final (load_weigths path1 path2 self)))).
  destruct self as [? ? ? [? ?] ? ?].
  run_method; reflexivity.
Qed.

Lemma method_call_frame (m m' : Model) :
  method_call m m' ->
  model_name m' = model_name m /\ device m' = device m
  /\ tokenizer m' = tokenizer m
  /\ config (encoder_decoder m') = config (encoder_decoder m).
Proof.
  intros [p q h gp ri self | p q h self | p1 p2 self].
  - by rewrite generate_final.
  - by rewrite compute_token_importances_final.
  - destruct (load_weigths_final p1 p2 self) as (ex & net & ->). done.
Qed.

Lemma method_calls_frame (m0 m : Model) :
  rtc method_call m0 m ->
  model_name m = model_name m0 /\ device m = device m0
  /\ tokenizer m = tokenizer m0
  /\ config (encoder_decoder m) = config (encoder_decoder m0).
Proof.
  induction 1 as [|m0 m1 m Hstep _ IH]; [done |].
  apply method_call_frame in Hstep as (Hn & Hd & Ht & Hc).
  destruct IH as (-> & -> & -> & ->). done.
Qed.

(** No sequence of method calls changes the model name, the device, the
    tokenizer or the configuration of the encoder-decoder. *)
Theorem methods_keep_identity_and_config (m0 m : Model) :
  rtc method_call m0 m ->
  model_name m = model_name m0
  /\ device m = device m0
  /\ tokenizer m = tokenizer m0
  /\ config (encoder_decoder m) = config (encoder_decoder m0).
Proof. apply method_calls_frame. Qed.

(** Every state a constructed model can reach through its methods has the
    decoder's start and padding ids equal to the tokenizer's cls and padding
    ids. *)
Theorem reachable_models_synchronized (name : string)
    (tok : option Tokenizer) (dev : string) (m0 m : Model) :
  init name tok dev = Ok m0 ->
  rtc method_call m0 m ->
  synchronized m.
Proof.
  intros Hinit Hcalls.
  apply method_calls_frame in Hcalls as (_ & _ & Ht & Hc).
  unfold synchronized. rewrite Hc, Ht. clear Hc Ht.
  revert Hinit. unfold init, mbind, result_bind.
  destruct (TokenImportancesExtractor name) as [ex|]; [|done].
  destruct (extractor_to ex dev) as [ex'|]; [|done].
  destruct (build_encoder_decoder name) as [ed|]; [|done].
  destruct (encoder_decoder_to (network ed) dev) as [net|]; [|done].
  destruct tok as [supplied|]; [by intros [= <-] |].
  destruct (AutoTokenizer_from_pretrained name) as [t|]; [|done].
  by intros [= <-].
Qed.

Lemma with_generation_params_twice (g g' : option pydict) (m : Model) :
  with_generation_params g (with_generation_params g' m)
  = with_generation_params g m.
Proof. reflexivity. Qed.



End Lifecycle.

(** ** More runs on the concrete backend *)

Section MoreRuns.
Import Toy.

Lemma linearization_keeps_border_separators_witness :
  let turns := ["Where is Paris?"; "In France."] in
  turns <> []
  /\ Forall turn_without_marker turns
  /\ compute_question_and_history bert_tokenizer "Why?"
       (Some "Where is Paris? <sep> In France. <sep> ")
     = "Why? [SEP] Where is Paris? [SEP] In France. [SEP] "
  /\ compute_question_and_history bert_tokenizer "Why?"
       (Some " <sep> Where is Paris? <sep> In France.")
     = "Why? [SEP]  [SEP] Where is Paris? [SEP] In France.".
Proof.
  intros turns.
  assert (Hne : turns <> []) by discriminate.
  assert (Hfree : Forall turn_without_marker turns) by (repeat constructor).
  split; [exact Hne |]. split; [exact Hfree |].
  exact (linearization_keeps_border_separators bert_tokenizer "Why?" turns
           Hne Hfree).
Defined.

Lemma generate_stops_at_first_error_witness :
  let run := generate [passage; passage] [question] None None false model in
  let e := Exception "ValueError: batch length of text and text_pair differ" in
  value run = Raise e
  /\ ((exists earlier c,
         calls run = earlier ++ [c]
         /\ Forall (fun c' => call_error c' = None) earlier
         /\ call_error c = Some e)
      \/ (is_Some (effective_generation_params None !! "token_importances")
          /\ Forall (fun c' => call_error c' = None) (calls run)
          /\ Forall (fun c' => is_generate_call c' = false) (calls run)
          /\ e = Exception "TypeError: got multiple values for keyword argument 'token_importances'")).
Proof.
  intros run e.
  assert (H : value run = Raise e) by reflexivity.
  split; [exact H |].
  exact (generate_stops_at_first_error
           [passage; passage] [question] None None false model e H).
Defined.

Lemma generate_rejects_token_importances_option_witness :
  let supplied : pydict := {[ "token_importances" := PyInt 1 ]} in
  let run := generate [passage] [question] None (Some supplied) false model in
  supplied !! "token_importances" = Some (PyInt 1)
  /\ is_raise (value run)
  /\ Forall (fun c => is_generate_call c = false) (calls run)
  /\ generation_params (final run) = Some supplied.
Proof.
  intros supplied run.
  assert (H : supplied !! "token_importances" = Some (PyInt 1))
    by (vm_compute; reflexivity).
  split; [exact H |].
  exact (generate_rejects_token_importances_option
           [passage] [question] None supplied (PyInt 1) false model H).
Defined.

Lemma two_method_calls :
  rtc method_call model
    (final (load_weigths "extractor.pt" "missing.pt"
              (final (generate [passage] [question] None None false model)))).
Proof.
  eapply rtc_l.
  - exact (method_generate [passage] [question] None None false model).
  - apply rtc_once.
    exact (method_load_weigths "extractor.pt" "missing.pt"
             (final (generate [passage] [question] None None false model))).
Defined.

Lemma methods_keep_identity_and_config_witness :
  let m := final (load_weigths "extractor.pt" "missing.pt"
                    (final (generate [passage] [question] None None false
                              model))) in
  rtc method_call model m
  /\ model_name m = model_name model
  /\ device m = device model
  /\ tokenizer m = tokenizer model
  /\ config (encoder_decoder m) = config (encoder_decoder model).
Proof.
  intros m. split; [exact two_method_calls |].
  exact (methods_keep_identity_and_config model m two_method_calls).
Defined.

Lemma reachable_models_synchronized_witness :
  let m := final (load_weigths "extractor.pt" "missing.pt"
                    (final (generate [passage] [question] None None false
                              model))) in
  init "prajjwal1/bert-tiny" None "cpu" = Ok model
  /\ rtc method_call model m
  /\ synchronized m.
Proof.
  intros m.
  assert (H : init "prajjwal1/bert-tiny" None "cpu" = Ok model) by reflexivity.
  split; [exact H |]. split; [exact two_method_calls |].
  exact (reachable_models_synchronized "prajjwal1/bert-tiny" None "cpu"
           model m H two_method_calls).
Defined.



End MoreRuns.
